(** * Walmart retail sales forecasting: feature pipeline, split, metric, forecasts

    A shallow embedding of the Python sources
      - [models/metrics.py]                  (holiday-weighted error),
      - [data_pipeline/feature_engineering.py] (feature builders and pipeline),
      - [models/trainer.py]                  (temporal split, training run),
      - [models/generate_forecasts.py]       (extrapolation and forecast write),
    together with the properties the specification states about them.

    Conventions of the embedding.
      - A pandas frame is the list of its rows, in frame order.  The
        identifying columns of a sales row are record fields; every other
        column lives in a finite map from column label to cell.
      - A float is an exact rational ([Qc]); the non-finite values a
        division can produce (nan, inf) are separate constructors.  Rounding
        of binary floating point is not modelled: what is stated as an
        exact equality of sums is stated for values that binary64 adds
        without rounding, and inequalities leave room for it.
      - A date is its proleptic Gregorian ordinal, as [date.toordinal()]
        gives it; one week is seven days.  Dates and week counts are
        unbounded; [pd] names the bounds of pandas timestamps and
        timedeltas, and that a call returns is stated inside them.
      - A Python exception is the [Raise] branch of [result]. *)

From Stdlib Require Import ZArith QArith Qcanon Qcabs Qround Lia Lqa.
From Stdlib Require Floats.
From stdpp Require Import base numbers list strings gmap sorting pretty.

Local Open Scope Z_scope.

(** ** Python values and exceptions *)

Inductive exn : Type :=
  | KeyError (label : string)
  | IndexError
  | ValueError (msg : string)
  | OperationalError (msg : string).

Inductive result (A : Type) : Type :=
  | Ok (a : A)
  | Raise (e : exn).
Arguments Ok {A} a.
Arguments Raise {A} e.

(** Sequencing of calls that may raise: the first exception aborts the
    rest.  [x ← m; k] is stdpp's notation for it. *)
Global Instance result_bind : MBind result := λ A B k m,
  match m with
  | Ok a => k a
  | Raise e => Raise e
  end.

(** A float64 scalar: an exact finite value, or one of the non-finite
    results of a division. *)
Inductive float : Type :=
  | Fin (q : Qc)
  | NaN
  | Inf (negative : bool).

Definition Zq (z : Z) : Qc := Qc_of_Z z.

(** [a / b] on float64 scalars under numpy's default error state: a zero
    divisor yields nan or a signed infinity, never an exception. *)
Definition np_divide (a b : Qc) : float :=
  if decide (b = 0%Qc) then
    (if decide (a = 0%Qc) then NaN else Inf (bool_decide (a < 0)%Qc))
  else Fin (a / b)%Qc.

(** [np.sum] of a one-dimensional array; the empty sum is 0. *)
Definition np_sum (xs : list Qc) : Qc := foldr Qcplus 0%Qc xs.

(** Elementwise binary operation on two one-dimensional arrays with
    numpy's broadcasting: equal lengths pair up, a length-one operand is
    stretched, anything else is a ValueError. *)
Definition np_broadcast {A B C} (f : A → B → C) (xs : list A) (ys : list B)
    : result (list C) :=
  if decide (length xs = length ys) then Ok (zip_with f xs ys)
  else match xs, ys with
       | [x], _ => Ok (map (f x) ys)
       | _, [y] => Ok (map (λ x, f x y) xs)
       | _, _ => Raise (ValueError "operands could not be broadcast together")
       end.

(** ** models/metrics.py *)

Module metrics.

(** [np.where(is_holiday, 5.0, 1.0)] *)
Definition weights (is_holiday : list bool) : list Qc :=
  map (λ h : bool, if h then Zq 5 else Zq 1) is_holiday.

Definition calculate_wmae (y_true y_pred : list Qc) (is_holiday : list bool)
    : result float :=
  let weights := weights is_holiday in
  absolute_errors ← np_broadcast (λ a b, Qcabs (a - b)) y_true y_pred;
  weighted_errors ← np_broadcast Qcmult weights absolute_errors;
  Ok (np_divide (np_sum weighted_errors) (np_sum weights)).




End metrics.

(** ** Calendar arithmetic of [datetime]

    The proleptic Gregorian calendar as Python's [datetime] module
    computes it: a date is the ordinal [toordinal()] returns (day 1 is
    0001-01-01), and year, month and day are recovered by [_ord2ymd]. *)

Module datetime.

Definition _is_leap (year : Z) : bool :=
  (year mod 4 =? 0) && (negb (year mod 100 =? 0) || (year mod 400 =? 0)).

Definition _DAYS_IN_MONTH : list Z :=
  [-1; 31; 28; 31; 30; 31; 30; 31; 31; 30; 31; 30; 31].

Definition _DAYS_BEFORE_MONTH : list Z :=
  [-1; 0; 31; 59; 90; 120; 151; 181; 212; 243; 273; 304; 334].

Definition _days_before_year (year : Z) : Z :=
  let y := year - 1 in y * 365 + y / 4 - y / 100 + y / 400.

Definition _days_in_month (year month : Z) : Z :=
  if (month =? 2) && _is_leap year then 29
  else nth (Z.to_nat month) _DAYS_IN_MONTH (-1).

Definition _days_before_month (year month : Z) : Z :=
  nth (Z.to_nat month) _DAYS_BEFORE_MONTH (-1)
  + (if (2 <? month) && _is_leap year then 1 else 0).

Definition _ymd2ord (year month day : Z) : Z :=
  _days_before_year year + _days_before_month year month + day.

Definition _DI400Y : Z := 146097.
Definition _DI100Y : Z := 36524.
Definition _DI4Y : Z := 1461.

Definition _ord2ymd (n : Z) : Z * Z * Z :=
  let n := n - 1 in
  let n400 := n / _DI400Y in
  let n := n mod _DI400Y in
  let year := n400 * 400 + 1 in
  let n100 := n / _DI100Y in
  let n := n mod _DI100Y in
  let n4 := n / _DI4Y in
  let n := n mod _DI4Y in
  let n1 := n / 365 in
  let n := n mod 365 in
  let year := year + n100 * 100 + n4 * 4 + n1 in
  if (n1 =? 4) || (n100 =? 4) then (year - 1, 12, 31)
  else
    let leapyear := (n1 =? 3) && (negb (n4 =? 24) || (n100 =? 3)) in
    let month := Z.shiftr (n + 50) 5 in
    let preceding :=
      nth (Z.to_nat month) _DAYS_BEFORE_MONTH (-1)
      + (if (2 <? month) && leapyear then 1 else 0) in
    if n <? preceding then
      let month := month - 1 in
      let preceding :=
        preceding - (nth (Z.to_nat month) _DAYS_IN_MONTH (-1)
                     + (if (month =? 2) && leapyear then 1 else 0)) in
      (year, month, n - preceding + 1)
    else (year, month, n - preceding + 1).

Definition year (d : Z) : Z := (_ord2ymd d).1.1.
Definition month (d : Z) : Z := (_ord2ymd d).1.2.
Definition day (d : Z) : Z := (_ord2ymd d).2.

(** Monday is 0, Sunday is 6. *)
Definition weekday (d : Z) : Z := (d + 6) mod 7.

Definition _isoweek1monday (year : Z) : Z :=
  let firstday := _ymd2ord year 1 1 in
  let firstweekday := (firstday + 6) mod 7 in
  let week1monday := firstday - firstweekday in
  if 3 <? firstweekday then week1monday + 7 else week1monday.

(** [isocalendar()[1]]: the ISO 8601 week number. *)
Definition isocalendar_week (d : Z) : Z :=
  let year := year d in
  let week1monday := _isoweek1monday year in
  let week := (d - week1monday) / 7 in
  if week <? 0 then (d - _isoweek1monday (year - 1)) / 7 + 1
  else if (52 <=? week) && (_isoweek1monday (year + 1) <=? d) then 1
  else week + 1.

(** [timetuple().tm_yday] *)
Definition tm_yday (d : Z) : Z := _days_before_month (year d) (month d) + day d.

(** [d + timedelta(weeks=w)] *)
Definition add_weeks (d w : Z) : Z := d + 7 * w.

End datetime.

(** The [Series.dt] accessors of pandas used by the feature builders. *)
Module dt.

Definition isocalendar_week (d : Z) : Z := datetime.isocalendar_week d.
Definition month (d : Z) : Z := datetime.month d.
Definition quarter (d : Z) : Z := (datetime.month d - 1) / 3 + 1.
Definition is_month_start (d : Z) : bool := datetime.day d =? 1.
Definition is_month_end (d : Z) : bool :=
  datetime.day d =? datetime._days_in_month (datetime.year d) (datetime.month d).

End dt.

(** The range of pandas.  A [Timestamp] and a [Timedelta] count
    nanoseconds in 64 bits: a timestamp at midnight exists from
    1677-09-22 to 2262-04-11, a timedelta of whole weeks has at most
    15250 of them, and a result outside this range is an
    OutOfBoundsDatetime or OutOfBoundsTimedelta error.  The embedding
    computes with unbounded dates; that a call returns is stated inside
    this range only. *)
Module pd.

Definition Timestamp_min : Z := datetime._ymd2ord 1677 9 22.
Definition Timestamp_max : Z := datetime._ymd2ord 2262 4 11.
Definition Timedelta_max_weeks : Z := 15250.

End pd.

(** ** Frames

    A cell of a frame: an integer, a float (nan is the missing value), a
    boolean, a string, or a date. *)
Inductive cell : Type :=
  | VInt (z : Z)
  | VFloat (x : float)
  | VBool (b : bool)
  | VStr (s : string)
  | VDate (d : Z).

Definition VNaN : cell := VFloat NaN.

Global Instance float_eq_dec : EqDecision float.
Proof. solve_decision. Defined.
Global Instance cell_eq_dec : EqDecision cell.
Proof. solve_decision. Defined.

(** The numeric reading of a cell, as an arithmetic column operation or
    the regressor takes it: booleans count as 0 and 1. *)
Definition to_float (v : cell) : float :=
  match v with
  | VInt z => Fin (Zq z)
  | VFloat x => x
  | VBool b => Fin (if b then Zq 1 else Zq 0)
  | VStr _ | VDate _ => NaN
  end.

(** The finite value of a cell, if it has one. *)
Definition finite (v : cell) : option Qc :=
  match to_float v with
  | Fin q => Some q
  | _ => None
  end.

(** One row of the working frame of the feature pipeline.  The five
    columns of a sales record are fields; [cols] holds every column that
    was merged in or derived, by label. *)
Record Row : Type := mkRow {
  store_id : Z;
  dept_id : Z;
  date : Z;
  weekly_sales : Qc;
  is_holiday : bool;
  cols : gmap string cell
}.

(** [row[c] = v] for a merged or derived column. *)
Definition set_col (c : string) (v : cell) (r : Row) : Row :=
  mkRow (store_id r) (dept_id r) (date r) (weekly_sales r) (is_holiday r)
        (<[c := v]> (cols r)).

Definition drop_col (c : string) (r : Row) : Row :=
  mkRow (store_id r) (dept_id r) (date r) (weekly_sales r) (is_holiday r)
        (delete c (cols r)).

(** [df[c] = values]: the values are laid on the rows position by position. *)
Definition assign (c : string) (values : list cell) (df : list Row) : list Row :=
  zip_with (set_col c) values df.

(** [c in df.columns] for a merged or derived column. *)
Definition has_column (c : string) (df : list Row) : bool :=
  forallb (λ r, bool_decide (is_Some (cols r !! c))) df.

(** [df[c]]: reading a column that the frame does not have is a KeyError. *)
Definition column (c : string) (df : list Row) : result (list cell) :=
  if has_column c df then Ok (map (λ r, default VNaN (cols r !! c)) df)
  else Raise (KeyError c).

(** *** sort_values

    Sorting by several columns is a stable lexicographic sort on the key
    columns.  [by] gives the key columns of a row in order. *)
Fixpoint lex_leb (a b : list Z) : bool :=
  match a, b with
  | [], _ => true
  | _ :: _, [] => false
  | x :: a', y :: b' => (x <? y) || ((x =? y) && lex_leb a' b')
  end.

Fixpoint insert_by {A} (leb : A → A → bool) (x : A) (l : list A) : list A :=
  match l with
  | [] => [x]
  | y :: l' => if leb x y then x :: y :: l' else y :: insert_by leb x l'
  end.

(** A stable sort: a row goes in front of the rows it does not exceed. *)
Definition sort_by {A} (leb : A → A → bool) (l : list A) : list A :=
  foldr (insert_by leb) [] l.

Definition sort_values {A} (by_ : A → list Z) (df : list A) : list A :=
  sort_by (λ a b, lex_leb (by_ a) (by_ b)) df.

(** *** groupby

    [df.groupby(keys)[col].transform(f)] and [.shift(k)]: the frame is
    split by key, each group keeps the frame's row order, [f] maps the
    group's rows to one value per row, and every value returns to the
    position of its row. *)
Fixpoint groupby_from {A B} (key : A → list Z) (f : list A → list B) (dflt : B)
    (df : list A) (pos : nat) (rest : list A) : list B :=
  match rest with
  | [] => []
  | r :: rest' =>
      nth (length (filter (λ r', key r' = key r) (take pos df)))
          (f (filter (λ r', key r' = key r) df)) dflt
      :: groupby_from key f dflt df (S pos) rest'
  end.

Definition groupby_transform {A B} (key : A → list Z) (f : list A → list B)
    (dflt : B) (df : list A) : list B :=
  groupby_from key f dflt df 0 df.

(** [Series.shift(k)]: position [i] receives the value of position
    [i - k]; positions without a source are nan. *)
Definition shift (k : Z) (xs : list cell) : list cell :=
  imap (λ i _, let j := Z.of_nat i - k in
               if 0 <=? j then nth (Z.to_nat j) xs VNaN else VNaN) xs.

(** *** merge

    [left.merge(right, how='left', suffixes=(lsuffix, rsuffix))].  A
    right-hand column whose label the left row already carries is stored
    under the label extended with [rsuffix], and the left-hand column
    moves to the label extended with [lsuffix]. *)
Definition typed_labels : list string :=
  ["store_id"; "dept_id"; "date"; "weekly_sales"; "is_holiday"].

Definition overlaps (l : Row) (c : string) : bool :=
  bool_decide (c ∈ typed_labels) || bool_decide (is_Some (cols l !! c)).

Definition merge_row (lsuffix rsuffix : string) (right_cols : list string)
    (l : Row) (s : gmap string cell) : Row :=
  let left :=
    foldr (λ c m, match m !! c with
                  | Some v => <[c +:+ lsuffix := v]> (delete c m)
                  | None => m
                  end) (cols l) right_cols in
  let both :=
    foldr (λ c m, <[(if overlaps l c then c +:+ rsuffix else c)
                    := default VNaN (s !! c)]> m) left right_cols in
  mkRow (store_id l) (dept_id l) (date l) (weekly_sales l) (is_holiday l) both.

(** Every left row comes out once per matching right row, in the order
    of the right frame, and once with missing right-hand columns when
    nothing matches. *)
Definition merge_left {R} (on : Row → R → bool) (series : R → gmap string cell)
    (right_cols : list string) (lsuffix rsuffix : string)
    (left : list Row) (right : list R) : list Row :=
  flat_map (λ l,
    match List.filter (on l) right with
    | [] => [merge_row lsuffix rsuffix right_cols l ∅]
    | ms => map (λ m, merge_row lsuffix rsuffix right_cols l (series m)) ms
    end) left.

(** ** The three input tables *)

Definition opt_cell (o : option Qc) : cell :=
  match o with
  | Some q => VFloat (Fin q)
  | None => VNaN
  end.

Module Sales.
Record t : Type := mk {
  store_id : Z;
  dept_id : Z;
  date : Z;
  weekly_sales : Qc;
  is_holiday : bool
}.
Definition record (s : t) : Z * Z * Z * Qc * bool :=
  (store_id s, dept_id s, date s, weekly_sales s, is_holiday s).
Definition row (s : t) : Row :=
  mkRow (store_id s) (dept_id s) (date s) (weekly_sales s) (is_holiday s) ∅.
End Sales.

Module Indicator.
Record t : Type := mk {
  store_id : Z;
  date : Z;
  temperature : option Qc;
  fuel_price : option Qc;
  markdown1 : option Qc;
  markdown2 : option Qc;
  markdown3 : option Qc;
  markdown4 : option Qc;
  markdown5 : option Qc;
  cpi : option Qc;
  unemployment : option Qc;
  is_holiday : bool
}.
Definition columns : list string :=
  ["temperature"; "fuel_price"; "markdown1"; "markdown2"; "markdown3";
   "markdown4"; "markdown5"; "cpi"; "unemployment"; "is_holiday"].
Definition series (i : t) : gmap string cell :=
  list_to_map
    [("temperature", opt_cell (temperature i));
     ("fuel_price", opt_cell (fuel_price i));
     ("markdown1", opt_cell (markdown1 i));
     ("markdown2", opt_cell (markdown2 i));
     ("markdown3", opt_cell (markdown3 i));
     ("markdown4", opt_cell (markdown4 i));
     ("markdown5", opt_cell (markdown5 i));
     ("cpi", opt_cell (cpi i));
     ("unemployment", opt_cell (unemployment i));
     ("is_holiday", VBool (is_holiday i))].
End Indicator.

Module Store.
Record t : Type := mk {
  store_id : Z;
  store_type : string;
  size : option Qc
}.
Definition columns : list string := ["store_type"; "size"].
Definition series (s : t) : gmap string cell :=
  list_to_map [("store_type", VStr (store_type s)); ("size", opt_cell (size s))].
End Store.

(** One row of the engineered feature table: the working row with its
    date column under the label [feature_date]. *)
Module Feature.
Record t : Type := mk {
  store_id : Z;
  dept_id : Z;
  feature_date : Z;
  weekly_sales : Qc;
  is_holiday : bool;
  cols : gmap string cell
}.
Definition record (r : t) : Z * Z * Z * Qc * bool :=
  (store_id r, dept_id r, feature_date r, weekly_sales r, is_holiday r).
(** The row as a pandas Series: every column by label. *)
Definition series (r : t) : gmap string cell :=
  <["store_id" := VInt (store_id r)]>
  (<["dept_id" := VInt (dept_id r)]>
  (<["feature_date" := VDate (feature_date r)]>
  (<["weekly_sales" := VFloat (Fin (weekly_sales r))]>
  (<["is_holiday" := VBool (is_holiday r)]> (cols r))))).
(** [df['feature_date'].max()] and [.min()]; the empty column has none (NaT). *)
Definition max_date (df : list t) : option Z :=
  match df with
  | [] => None
  | r :: df' => Some (foldr Z.max (feature_date r) (map feature_date df'))
  end.
Definition min_date (df : list t) : option Z :=
  match df with
  | [] => None
  | r :: df' => Some (foldr Z.min (feature_date r) (map feature_date df'))
  end.
End Feature.

(** ** Column statistics *)

(** The finite entries of a column: the entries a [skipna] statistic sees.
    Infinities never enter the pipeline, whose inputs are finite or
    missing. *)
Definition finite_values (xs : list cell) : list Qc := omap finite xs.

Definition mean_of (vs : list Qc) : float :=
  match vs with
  | [] => NaN
  | _ => Fin (np_sum vs / Zq (Z.of_nat (length vs)))%Qc
  end.

Definition min_of (vs : list Qc) : float :=
  match vs with
  | [] => NaN
  | v :: vs' => Fin (foldr (λ a b, if decide (a ≤ b)%Qc then a else b) v vs')
  end.

Definition max_of (vs : list Qc) : float :=
  match vs with
  | [] => NaN
  | v :: vs' => Fin (foldr (λ a b, if decide (b ≤ a)%Qc then a else b) v vs')
  end.

(** [a - b] on cells; nan when either side is missing. *)
Definition sub_cell (a b : cell) : cell :=
  match finite a, finite b with
  | Some x, Some y => VFloat (Fin (x - y)%Qc)
  | _, _ => VNaN
  end.

(** [Series.diff()]: each entry minus the one before it. *)
Definition diff (xs : list cell) : list cell :=
  zip_with sub_cell xs (VNaN :: xs).

(** The rows of the trailing window of width [w] that ends at position [i]. *)
Definition window_at {A} (w i : nat) (xs : list A) : list A :=
  drop (S i - w) (take (S i) xs).

(** [Series.rolling(window=w, min_periods=1).agg()] *)
Definition rolling (w : nat) (agg : list Qc → float) (xs : list cell) : list cell :=
  imap (λ i _, VFloat (agg (finite_values (window_at w i xs)))) xs.

Section feature_engineering.

(** The floating-point square root, which has no exact rational value. *)
Variable sqrt : Qc → Qc.

(** Sample standard deviation (divisor n − 1); undefined below two
    observations. *)
Definition std_of (vs : list Qc) : float :=
  match vs with
  | [] | [_] => NaN
  | _ =>
      let n := Zq (Z.of_nat (length vs)) in
      let m := (np_sum vs / n)%Qc in
      Fin (sqrt (np_sum (map (λ v, (v - m) * (v - m))%Qc vs) / (n - 1))%Qc)
  end.

(** ** data_pipeline/feature_engineering.py *)

Definition create_temporal_features (df : list Row) : list Row :=
  let df := assign "week_of_year"
              (map (λ r, VInt (dt.isocalendar_week (date r))) df) df in
  let df := assign "month" (map (λ r, VInt (dt.month (date r))) df) df in
  let df := assign "quarter" (map (λ r, VInt (dt.quarter (date r))) df) df in
  let df := assign "is_month_start"
              (map (λ r, VBool (dt.is_month_start (date r))) df) df in
  let df := assign "is_month_end"
              (map (λ r, VBool (dt.is_month_end (date r))) df) df in
  df.

(** The target column, at its default [target_col='weekly_sales'], which
    is how every caller in the repository leaves it. *)
Definition target (r : Row) : cell := VFloat (Fin (weekly_sales r)).

Definition store_dept (r : Row) : list Z := [store_id r; dept_id r].
Definition store_dept_date (r : Row) : list Z := [store_id r; dept_id r; date r].
Definition store_date (r : Row) : list Z := [store_id r; date r].
Definition store (r : Row) : list Z := [store_id r].

Definition lag_label (lag : Z) : string := "sales_lag_" +:+ pretty lag.

(** The body of the loop over the lags: one lag column written on the
    frame. *)
Definition lag_step (df : list Row) (lag : Z) : list Row :=
  assign (lag_label lag)
    (groupby_transform store_dept (λ g, shift lag (map target g)) VNaN df) df.

Definition create_lag_features (df : list Row) (lags : list Z) : list Row :=
  let df := sort_values store_dept_date df in
  foldl lag_step df lags.

Definition rolling_column (label : string) (window : Z) (agg : list Qc → float)
    (df : list Row) : list Row :=
  assign (label +:+ pretty window)
    (groupby_transform store_dept
       (λ g, rolling (Z.to_nat window) agg (map target g)) VNaN df)
    df.

Definition create_rolling_features (df : list Row) (windows : list Z)
    : result (list Row) :=
  let df := sort_values store_dept_date df in
  foldl (λ acc window,
           df ← acc;
           if window <? 1 then Raise (ValueError "min_periods must be <= window")
           else
             let df := rolling_column "rolling_mean_" window mean_of df in
             let df := rolling_column "rolling_std_" window std_of df in
             if window =? 4 then
               let df := rolling_column "rolling_min_" window min_of df in
               let df := rolling_column "rolling_max_" window max_of df in
               Ok df
             else Ok df)
        (Ok df) windows.

(** [df.groupby('store_id')[c].transform(f)] written to column [out]. *)
Definition store_transform (c out : string) (f : list cell → list cell)
    (df : list Row) : result (list Row) :=
  _ ← column c df;
  Ok (assign out
        (groupby_transform store
           (λ g, f (map (λ r, default VNaN (cols r !! c)) g)) VNaN df)
        df).

Definition deviation_from_mean (xs : list cell) : list cell :=
  map (λ x, sub_cell x (VFloat (mean_of (finite_values xs)))) xs.

Definition create_economic_features (df : list Row) : result (list Row) :=
  let df := sort_values store_date df in
  df ← store_transform "temperature" "temperature_deviation"
         deviation_from_mean df;
  df ← store_transform "fuel_price" "fuel_price_change" diff df;
  df ← store_transform "cpi" "cpi_change" diff df;
  df ← store_transform "unemployment" "unemployment_change" diff df;
  Ok df.

Definition markdown_cols : list string :=
  ["markdown1"; "markdown2"; "markdown3"; "markdown4"; "markdown5"].

(** [df[c] = df[c].fillna(0)] *)
Definition fillna0 (c : string) (r : Row) : Row :=
  match cols r !! c with
  | Some (VFloat NaN) => set_col c (VFloat (Fin 0%Qc)) r
  | _ => r
  end.

(** [df[markdown_cols]]: selecting a list of labels raises a KeyError when
    one of them is missing. *)
Definition select (cs : list string) (df : list Row) : result (list (list cell)) :=
  match List.filter (λ c, negb (has_column c df)) cs with
  | [] => Ok (map (λ r, map (λ c, default VNaN (cols r !! c)) cs) df)
  | c :: _ => Raise (KeyError c)
  end.

Definition create_markdown_features (df : list Row) : result (list Row) :=
  let df := foldl (λ df col, if has_column col df then map (fillna0 col) df else df)
                  df markdown_cols in
  md ← select markdown_cols df;
  let df := assign "total_markdown"
              (map (λ vs, VFloat (Fin (np_sum (finite_values vs)))) md) df in
  total ← column "total_markdown" df;
  let df := assign "has_markdown"
              (map (λ t, VInt (if bool_decide (0 < default 0 (finite t))%Qc
                               then 1 else 0)) total) df in
  md ← select markdown_cols df;
  let df := assign "markdown_count"
              (map (λ vs, VInt (Z.of_nat (length
                      (List.filter (λ v, bool_decide (0 < v)%Qc) (finite_values vs)))))
                   md) df in
  Ok df.

(** [(df['store_type'] == t).astype(int)] *)
Definition one_hot (t : string) (v : cell) : cell :=
  VInt (if bool_decide (v = VStr t) then 1 else 0).

(** [(x - mean) / std] on one entry of the size column. *)
Definition normalize (mean std : float) (x : cell) : cell :=
  match finite x, mean, std with
  | Some v, Fin m, Fin s => VFloat (np_divide (v - m) s)
  | _, _, _ => VNaN
  end.

Definition create_store_features (df : list Row) (stores_df : list Store.t)
    : result (list Row) :=
  let df := merge_left (λ l s, bool_decide (store_id l = Store.store_id s))
              Store.series Store.columns "_x" "_y" df stores_df in
  ty ← column "store_type" df;
  let df := assign "store_type_a" (map (one_hot "A") ty) df in
  ty ← column "store_type" df;
  let df := assign "store_type_b" (map (one_hot "B") ty) df in
  ty ← column "store_type" df;
  let df := assign "store_type_c" (map (one_hot "C") ty) df in
  size ← column "size" df;
  let df := assign "size_normalized"
              (map (normalize (mean_of (finite_values size))
                              (std_of (finite_values size))) size) df in
  _ ← select ["store_type"; "size"] df;
  Ok (map (λ r, drop_col "size" (drop_col "store_type" r)) df).

(** [df.rename(columns={'date': 'feature_date'})] *)
Definition rename_date (r : Row) : Feature.t :=
  Feature.mk (store_id r) (dept_id r) (date r) (weekly_sales r) (is_holiday r)
             (cols r).

Definition engineer_features (sales_df : list Sales.t)
    (features_df : list Indicator.t) (stores_df : list Store.t)
    : result (list Feature.t) :=
  let df := merge_left
              (λ l f, bool_decide (store_id l = Indicator.store_id f)
                      && bool_decide (date l = Indicator.date f))
              Indicator.series Indicator.columns "" "_feat"
              (map Sales.row sales_df) features_df in
  let df := if has_column "is_holiday_feat" df
            then map (drop_col "is_holiday_feat") df else df in
  let df := create_temporal_features df in
  let df := create_lag_features df [1; 2; 4; 8; 52] in
  df ← create_rolling_features df [4; 13; 52];
  df ← create_economic_features df;
  df ← create_markdown_features df;
  df ← create_store_features df stores_df;
  Ok (map rename_date df).

End feature_engineering.

(** ** Programs with a mutable store

    [prog S A] is a Python call that may update a store of type [S]
    (object attributes, database tables) and either returns an [A] or
    raises.  What it did to the store before raising stays done. *)
Definition prog (S A : Type) : Type := S → S * result A.

Global Instance prog_bind {S} : MBind (prog S) := λ A B k m s,
  match m s with
  | (s', Ok a) => k a s'
  | (s', Raise e) => (s', Raise e)
  end.

Definition ret {S A} (a : A) : prog S A := λ s, (s, Ok a).
Definition lift {S A} (r : result A) : prog S A := λ s, (s, r).
Definition modify {S} (f : S → S) : prog S () := λ s, (f s, Ok ()).
Definition get {S} : prog S S := λ s, (s, Ok s).

(** ** The external store

    The relational database behind SQLAlchemy: the two tables the core
    writes, and the outcome of the statements still to come, one entry per
    statement in the order they are issued ([Some e]: that statement fails
    with [e]; no entry: it succeeds). *)
Module Forecast.
Record t : Type := mk {
  store_id : Z;
  dept_id : Z;
  forecast_date : Z;
  predicted_sales : Qc;
  prediction_lower : Qc;
  prediction_upper : Qc;
  model_name : string;
  model_version : string;
  confidence_score : Qc
}.
End Forecast.

Record Metrics : Type := mkMetrics {
  wmae : float;
  mae : float;
  rmse : float;
  mape : float
}.

Module Metadata.
Record t : Type := mk {
  run_id : string;
  model_name : string;
  model_version : string;
  wmae : float;
  mae : float;
  rmse : float;
  parameters : list (string * string);
  feature_importance : list (string * Qc)
}.
End Metadata.

Record Database : Type := mkDatabase {
  forecasts : list Forecast.t;
  model_metadata : list Metadata.t;
  outcomes : list (option exn);
  (** every state of the [forecasts] table that was committed, oldest
      first: what a reader of the table could have seen *)
  committed : list (list Forecast.t)
}.

(** One statement run in its own transaction and committed: it either
    takes effect as a whole, or fails and leaves the tables as they
    were. *)
Definition statement (effect : Database → Database) : prog Database () := λ db,
  let rest := tail (outcomes db) in
  match head (outcomes db) with
  | Some (Some e) =>
      (mkDatabase (forecasts db) (model_metadata db) rest (committed db), Raise e)
  | _ =>
      let db' := effect db in
      (mkDatabase (forecasts db') (model_metadata db') rest
         (committed db ++ [forecasts db']), Ok ())
  end.

(** [engine.connect()]: opening a connection changes no table. *)
Definition connect : prog Database () := λ db,
  let rest := tail (outcomes db) in
  match head (outcomes db) with
  | Some (Some e) =>
      (mkDatabase (forecasts db) (model_metadata db) rest (committed db), Raise e)
  | _ => (mkDatabase (forecasts db) (model_metadata db) rest (committed db), Ok ())
  end.

(** ** models/trainer.py *)

Inductive level : Type := INFO | WARNING | ERROR.

Record log_record : Type := mkLog {
  levelname : level;
  message : string
}.

(** A trained LightGBM booster: its feature names, its prediction for one
    row of features, and the gain of every feature. *)
Record Booster : Type := mkBooster {
  feature_name : option (list string);
  predict_row : list (string * cell) → Qc;
  best_iteration : Z;
  gain : list Qc
}.

Module trainer.

Definition pad2 (z : Z) : string :=
  if z <? 10 then "0" +:+ pretty z else pretty z.

(** A timestamp as a log line shows it, without the time of day; the
    missing timestamp prints as NaT.  Counts are shown without digit
    grouping. *)
Definition show_date (d : option Z) : string :=
  match d with
  | Some d => pretty (datetime.year d) +:+ "-" +:+ pad2 (datetime.month d)
              +:+ "-" +:+ pad2 (datetime.day d)
  | None => "NaT"
  end.

Definition split_log (name : string) (part : list Feature.t) : log_record :=
  mkLog INFO (name +:+ pretty (Z.of_nat (length part)) +:+ " samples ("
              +:+ show_date (Feature.min_date part) +:+ " to "
              +:+ show_date (Feature.max_date part) +:+ ")").

Record Split : Type := mkSplit {
  train_df : list Feature.t;
  val_df : list Feature.t;
  log : list log_record
}.

(** Sorting on the single date column goes through numpy's default sort,
    which fixes the order of rows with equal dates in no documented way;
    the stable order is taken here. *)
Definition create_train_val_split (df : list Feature.t) (val_weeks : Z)
    : result Split :=
  let df := sort_values (λ r, [Feature.feature_date r]) df in
  let max_date := Feature.max_date df in
  (* a comparison with the missing timestamp of an empty frame is False *)
  let val_start_date := (λ d, d - 7 * val_weeks) <$> max_date in
  let train_df :=
    List.filter (λ r, match val_start_date with
                      | Some c => Feature.feature_date r <? c
                      | None => false
                      end) df in
  let val_df :=
    List.filter (λ r, match val_start_date with
                      | Some c => c <=? Feature.feature_date r
                      | None => false
                      end) df in
  Ok (mkSplit train_df val_df
        [mkLog INFO "✓ Train/Val split created:";
         split_log "  Train: " train_df;
         split_log "  Val:   " val_df]).

(** The attributes of a [WalmartForecaster] object. *)
Record Forecaster : Type := mkForecaster {
  model : option Booster;
  feature_names : option (list string);
  feature_importance : option (list (string * Qc))
}.

(** What a training run can touch: the forecaster object and the database. *)
Record State : Type := mkState {
  self : Forecaster;
  db : Database
}.

Definition on_db {A} (m : prog Database A) : prog State A := λ s,
  let '(db', r) := m (db s) in (mkState (self s) db', r).

Definition on_self {A} (m : prog Forecaster A) : prog State A := λ s,
  let '(self', r) := m (self s) in (mkState self' (db s), r).

(** The calls into MLflow made during a run. *)
Inductive mlflow_call : Type :=
  | start_run
  | log_params
  | log_param (key : string) (value : Z)
  | log_metric (key : string) (value : float)
  | log_artifact (path : string)
  | log_model (artifact_path registered_model_name : string).

Definition exclude_cols : list string :=
  ["id"; "store_id"; "dept_id"; "feature_date"; "weekly_sales"; "created_at"].

(** [df.columns]; the frame model keeps no column order, so the labels
    come in the enumeration order of the first row. *)
Definition columns_of (df : list Feature.t) : list string :=
  match df with
  | [] => []
  | r :: _ => (map_to_list (Feature.series r)).*1
  end.

Definition prepare_data (df : list Feature.t)
    : prog Forecaster (list (list (string * cell)) * list Qc * list bool) :=
  let feature_cols :=
    List.filter (λ col, negb (bool_decide (col ∈ exclude_cols))) (columns_of df) in
  let X := map (λ r, map (λ c, (c, default VNaN (Feature.series r !! c)))
                         feature_cols) df in
  let y := map Feature.weekly_sales df in
  let is_holiday := map Feature.is_holiday df in
  _ ← modify (λ f, mkForecaster (model f) (Some feature_cols) (feature_importance f));
  ret (X, y, is_holiday).

Section train.

Variable sqrt : Qc → Qc.
(** [config['model']['params']] *)
Variable params : list (string * string).
(** [lgb.train]: fitting on the training set, monitored on the validation
    set when there is one. *)
Variable lgb_train :
  list (list (string * cell)) → list Qc →
  option (list (list (string * cell)) * list Qc) → result Booster.
Variable mlflow : mlflow_call → result ().
(** [mlflow.active_run().info.run_id] *)
Variable active_run_id : string.

(** sklearn's [mean_absolute_error] and [mean_squared_error] reject an
    empty sample and samples of different lengths. *)
Definition mean_error (f : Qc → Qc → Qc) (y_true y_pred : list Qc) : result Qc :=
  if decide (length y_true = length y_pred) then
    match y_true with
    | [] => Raise (ValueError "Found array with 0 sample(s)")
    | _ => Ok (np_sum (zip_with f y_true y_pred)
               / Zq (Z.of_nat (length y_true)))%Qc
    end
  else Raise (ValueError "Found input variables with inconsistent numbers of samples").

Definition calculate_mae (y_true y_pred : list Qc) : result float :=
  m ← mean_error (λ a b, Qcabs (a - b)) y_true y_pred; Ok (Fin m).

Definition calculate_rmse (y_true y_pred : list Qc) : result float :=
  m ← mean_error (λ a b, (a - b) * (a - b))%Qc y_true y_pred; Ok (Fin (sqrt m)).

(** The mask [y_true != 0] selects from both arrays; on an array of
    another length the boolean index is an IndexError. *)
Definition calculate_mape (y_true y_pred : list Qc) : result float :=
  if decide (length y_true = length y_pred) then
    let kept := List.filter (λ ab : Qc * Qc, negb (bool_decide (ab.1 = 0%Qc)))
                  (zip y_true y_pred) in
    Ok (match mean_of (map (λ ab : Qc * Qc, Qcabs ((ab.1 - ab.2) / ab.1)) kept) with
        | Fin m => Fin (m * Zq 100)%Qc
        | x => x
        end)
  else Raise IndexError.

Definition evaluate_model (y_true y_pred : list Qc) (is_holiday : list bool)
    : result Metrics :=
  wmae ← metrics.calculate_wmae y_true y_pred is_holiday;
  mae ← calculate_mae y_true y_pred;
  rmse ← calculate_rmse y_true y_pred;
  mape ← calculate_mape y_true y_pred;
  Ok (mkMetrics wmae mae rmse mape).

Definition log_metrics (prefix : string) (m : Metrics) : result () :=
  _ ← mlflow (log_metric (prefix +:+ "wmae") (wmae m));
  _ ← mlflow (log_metric (prefix +:+ "mae") (mae m));
  _ ← mlflow (log_metric (prefix +:+ "rmse") (rmse m));
  mlflow (log_metric (prefix +:+ "mape") (mape m)).

Definition _save_model_metadata (run_id : string) (wmae mae rmse : float)
    : prog State () :=
  _ ← on_db connect;
  s ← get;
  let metadata :=
    Metadata.mk run_id "lightgbm_forecaster" "v1.0" wmae mae rmse params
      (default [] (feature_importance (self s))) in
  on_db (statement (λ db,
    mkDatabase (forecasts db) (model_metadata db ++ [metadata])
               (outcomes db) (committed db))).

(** The body of [train] from the data preparation to the logging of the
    model: everything before the metadata is saved.  It touches the
    forecaster object and MLflow, not the database. *)
Definition training_steps (train_df : list Feature.t)
    (val_df : option (list Feature.t)) : prog Forecaster Metrics :=
  '(X_train, y_train, is_holiday_train) ← prepare_data train_df;
  val ← match val_df with
        | Some v => d ← prepare_data v; ret (Some d)
        | None => ret None
        end;
  _ ← lift (mlflow start_run);
  _ ← lift (mlflow log_params);
  _ ← lift (mlflow (log_param "train_samples" (Z.of_nat (length X_train))));
  _ ← match val with
      | Some (X_val, _, _) =>
          lift (mlflow (log_param "val_samples" (Z.of_nat (length X_val))))
      | None => ret ()
      end;
  booster ← lift (lgb_train X_train y_train
                    ((λ v : _ * list Qc * list bool, (v.1.1, v.1.2)) <$> val));
  _ ← modify (λ f, mkForecaster (Some booster) (feature_names f)
                                (feature_importance f));
  let train_pred := map (predict_row booster) X_train in
  train_metrics ← lift (evaluate_model y_train train_pred is_holiday_train);
  _ ← lift (log_metrics "train_" train_metrics);
  val_metrics ← match val with
                | Some (X_val, y_val, is_holiday_val) =>
                    let val_pred := map (predict_row booster) X_val in
                    m ← lift (evaluate_model y_val val_pred is_holiday_val);
                    _ ← lift (log_metrics "val_" m);
                    ret (Some m)
                | None => ret None
                end;
  f ← get;
  let names := default [] (feature_names f) in
  importance ←
    (if decide (length names = length (gain booster))
     then ret (sort_by (λ a b : string * Qc, bool_decide (b.2 ≤ a.2)%Qc)
                       (zip names (gain booster)))
     else lift (Raise (ValueError "All arrays must be of the same length")));
  _ ← modify (λ f, mkForecaster (model f) (feature_names f) (Some importance));
  _ ← lift (mlflow (log_artifact "feature_importance.csv"));
  _ ← lift (mlflow (log_model "model" "walmart_sales_forecaster"));
  ret (default train_metrics val_metrics).

Definition train (train_df : list Feature.t) (val_df : option (list Feature.t))
    : prog State Metrics :=
  reported ← on_self (training_steps train_df val_df);
  let run_id := active_run_id in
  _ ← _save_model_metadata run_id (wmae reported) (mae reported) (rmse reported);
  ret reported.

End train.

End trainer.

(** ** models/generate_forecasts.py *)

(** Python's [round(x, ndigits)]: to the nearest multiple of
    10^-ndigits, a tie going to the even one. *)
Definition round_half_even (q : Qc) : Z :=
  let f := Qfloor q in
  let r := (q - Zq f)%Qc in
  let half := (Zq 1 / Zq 2)%Qc in
  if decide (r < half)%Qc then f
  else if decide (half < r)%Qc then f + 1
  else if Z.even f then f else f + 1.

Definition round_ (q : Qc) (ndigits : Z) : Qc :=
  (Zq (round_half_even (q * Zq (10 ^ ndigits))) / Zq (10 ^ ndigits))%Qc.

(** Python's [max(a, b)] *)
Definition py_max (a b : Qc) : Qc := if decide (a < b)%Qc then b else a.

(** [l.index(x)] *)
Fixpoint index (x : Z) (l : list Z) : result Z :=
  match l with
  | [] => Raise (ValueError "is not in list")
  | y :: l' => if decide (y = x) then Ok 0 else i ← index x l'; Ok (i + 1)
  end.

(** The value stored under a label in a one-row frame. *)
Fixpoint item (c : string) (X : list (string * cell)) : option cell :=
  match X with
  | [] => None
  | (c', v) :: X' => if decide (c' = c) then Some v else item c X'
  end.

Module generate_forecasts.

Definition default_feature_columns : list string :=
  ["week_of_year"; "month"; "quarter"; "year";
   "day_of_week"; "day_of_month"; "day_of_year";
   "is_month_start"; "is_month_end";
   "is_quarter_start"; "is_quarter_end";
   "sales_lag_1"; "sales_lag_2"; "sales_lag_4";
   "sales_lag_8"; "sales_lag_52";
   "rolling_mean_4"; "rolling_mean_13"; "rolling_mean_52";
   "rolling_std_4"; "rolling_std_13";
   "rolling_min_4"; "rolling_max_4";
   "temperature"; "temperature_deviation";
   "fuel_price"; "fuel_price_change";
   "cpi"; "cpi_change";
   "unemployment"; "unemployment_change";
   "total_markdown"; "has_markdown"; "markdown_count";
   "store_type_A"; "store_type_B"; "store_type_C";
   "size_normalized"; "is_holiday"].

Definition get_feature_columns (model : Booster) : list string :=
  match feature_name model with
  | Some features => features
  | None => default_feature_columns
  end.

Definition flag (b : bool) : cell := VInt (if b then 1 else 0).

(** The first half of the body of the inner loop: the copy of the base
    row with its time features set for the forecast date. *)
Definition feature_row (feature_cols : list string) (row : Feature.t)
    (forecast_date : Z) : gmap string cell :=
  let feature_row := Feature.series row in
  let feature_row :=
    <["week_of_year" := VInt (datetime.isocalendar_week forecast_date)]> feature_row in
  let feature_row := <["month" := VInt (datetime.month forecast_date)]> feature_row in
  let feature_row :=
    <["quarter" := VInt ((datetime.month forecast_date - 1) / 3 + 1)]> feature_row in
  let feature_row :=
    if bool_decide ("year" ∈ feature_cols)
    then <["year" := VInt (datetime.year forecast_date)]> feature_row
    else feature_row in
  let feature_row :=
    if bool_decide ("day_of_week" ∈ feature_cols)
    then <["day_of_week" := VInt (datetime.weekday forecast_date)]> feature_row
    else feature_row in
  let feature_row :=
    if bool_decide ("day_of_month" ∈ feature_cols)
    then <["day_of_month" := VInt (datetime.day forecast_date)]> feature_row
    else feature_row in
  let feature_row :=
    if bool_decide ("day_of_year" ∈ feature_cols)
    then <["day_of_year" := VInt (datetime.tm_yday forecast_date)]> feature_row
    else feature_row in
  let feature_row :=
    <["is_month_start" := flag (datetime.day forecast_date <=? 7)]> feature_row in
  let feature_row :=
    <["is_month_end" := flag (24 <=? datetime.day forecast_date)]> feature_row in
  let feature_row :=
    <["is_quarter_start" :=
        flag (bool_decide (datetime.month forecast_date ∈ [1; 4; 7; 10]))]>
      feature_row in
  let feature_row :=
    <["is_quarter_end" :=
        flag (bool_decide (datetime.month forecast_date ∈ [3; 6; 9; 12]))]>
      feature_row in
  feature_row.

(** The second half, up to the prediction: the one-row frame [X] in the
    model's column order, with 0 for the columns the row lacks. *)
Definition feature_vector (feature_cols : list string) (row : Feature.t)
    (forecast_date : Z) : list (string * cell) :=
  let feature_row := feature_row feature_cols row forecast_date in
  let available :=
    List.filter (λ c, bool_decide (is_Some (feature_row !! c))) feature_cols in
  let missing :=
    List.filter (λ c, negb (bool_decide (is_Some (feature_row !! c)))) feature_cols in
  let X := map (λ c, (c, default VNaN (feature_row !! c))) available in
  let X := foldl (λ X col, X ++ [(col, VInt 0)]) X missing in
  map (λ c, (c, default VNaN (item c X))) feature_cols.

Definition forecast (model : Booster) (feature_cols : list string)
    (future_dates : list Z) (row : Feature.t) (forecast_date : Z)
    : result Forecast.t :=
  let store_id := Feature.store_id row in
  let dept_id := Feature.dept_id row in
  let X := feature_vector feature_cols row forecast_date in
  let pred := predict_row model X in
  let pred := py_max pred 0%Qc in
  let std_estimate := py_max (pred * (Zq 15 / Zq 100)) (Zq 100) in
  let lower := py_max (pred - (Zq 196 / Zq 100) * std_estimate) 0%Qc in
  let upper := (pred + (Zq 196 / Zq 100) * std_estimate)%Qc in
  i ← index forecast_date future_dates;
  Ok (Forecast.mk store_id dept_id forecast_date
        (round_ pred 2) (round_ lower 2) (round_ upper 2)
        "lightgbm_forecaster" "v1.0"
        (round_ (Zq 85 / Zq 100 - (Zq 2 / Zq 100) * Zq i) 4)).

(** [for ... in ...: all_forecasts.append(...)]: the first exception
    ends the loop. *)
Fixpoint for_each {A B} (f : A → result B) (l : list A) : result (list B) :=
  match l with
  | [] => Ok []
  | a :: l' => b ← f a; bs ← for_each f l'; Ok (b :: bs)
  end.

(** Log lines are kept only where formatting them can raise: the
    forecast-date line indexes the list of dates and calls [.date()] on
    its ends, and the summary lines read columns of the forecast frame. *)
Definition generate_predictions (model : Booster) (features_df : list Feature.t)
    (forecast_weeks : Z) : result (list Forecast.t) :=
  let feature_cols := get_feature_columns model in
  let last_date := Feature.max_date features_df in
  let future_dates :=
    map (λ w, (λ d, datetime.add_weeks d w) <$> last_date) (seqZ 1 forecast_weeks) in
  future_dates ←
    match future_dates with
    | [] => Raise IndexError
    | _ => match last_date with
           | None => Raise (ValueError "NaTType does not support date")
           | Some d => Ok (map (datetime.add_weeks d) (seqZ 1 forecast_weeks))
           end
    end;
  per_row ← for_each (λ row,
               for_each (forecast model feature_cols future_dates row) future_dates)
             features_df;
  let all_forecasts := concat per_row in
  match all_forecasts with
  | [] => Raise (KeyError "store_id")
  | _ => Ok all_forecasts
  end.

(** [with engine.connect() as conn: conn.execute(DELETE); conn.commit()],
    then [forecast_df.to_sql('forecasts', engine, if_exists='append')],
    which inserts all rows in one transaction of its own. *)
Definition write_forecasts (forecast_df : list Forecast.t) : prog Database () :=
  _ ← connect;
  _ ← statement (λ db,
        mkDatabase [] (model_metadata db) (outcomes db) (committed db));
  statement (λ db,
    mkDatabase (forecasts db ++ forecast_df) (model_metadata db)
               (outcomes db) (committed db)).

End generate_forecasts.

(** ** Vocabulary of the statements *)

(** The sales record a working row carries. *)
Definition base (r : Row) : Z * Z * Z * Qc * bool :=
  (store_id r, dept_id r, date r, weekly_sales r, is_holiday r).



(** The indicator columns that survive the first merge. *)
Definition indicator_cols : list string :=
  ["temperature"; "fuel_price"; "markdown1"; "markdown2"; "markdown3";
   "markdown4"; "markdown5"; "cpi"; "unemployment"].

(** A frame whose rows all carry the columns [present], and none of
    which carries a store column yet. *)
Definition carries (present : list string) (df : list Row) : Prop :=
  Forall (λ r, (∀ c, c ∈ present → is_Some (cols r !! c))
               ∧ cols r !! "store_type" = None
               ∧ cols r !! "size" = None) df.

(** The metadata write of a training run fails with [e]: the connection
    cannot be opened, or the insert is refused. *)
Definition metadata_write_fails (db : Database) (e : exn) : Prop :=
  match outcomes db with
  | Some e' :: _ => e' = e
  | None :: Some e' :: _ => e' = e
  | _ => False
  end.

(** A frame whose rows all carry the two store columns. *)
Definition with_store (df : list Row) : Prop :=
  Forall (λ r, is_Some (cols r !! "store_type") ∧ is_Some (cols r !! "size")) df.

(** The sales records of a frame are those of another, each exactly once. *)
Definition same_records (df out : list Row) : Prop := base <$> out ≡ₚ base <$> df.

(** The time features the forecast loop may overwrite. *)
Definition calendar_labels : list string :=
  ["week_of_year"; "month"; "quarter"; "year"; "day_of_week"; "day_of_month";
   "day_of_year"; "is_month_start"; "is_month_end"; "is_quarter_start";
   "is_quarter_end"].

(** The value [create_temporal_features] derives under a label for a
    given date. *)
Definition temporal_feature (label : string) (d : Z) : option cell :=
  match create_temporal_features [mkRow 0 0 d 0%Qc false ∅] with
  | [r] => cols r !! label
  | _ => None
  end.

(** Absolute errors that binary64 adds up without rounding: whole
    numbers whose sum, weighted by 5, stays below 2^53.  On such errors
    the products and sums of [calculate_wmae] are exact on the machine,
    in whatever order they are taken. *)
Definition exact_in_binary64 (errors : list Qc) : Prop :=
  ∃ ks : list Z,
    errors = Zq <$> ks ∧ Forall (λ k, 0 ≤ k) ks ∧ 5 * foldr Z.add 0 ks < 2 ^ 53.

(** The series and date a forecast row is for. *)
Definition forecast_key (f : Forecast.t) : Z * Z * Z :=
  (Forecast.store_id f, Forecast.dept_id f, Forecast.forecast_date f).

(** The weekly dates after [last_date], [horizon] of them. *)
Definition date_grid (last_date horizon : Z) : list Z :=
  (λ w, last_date + 7 * w) <$> seqZ 1 horizon.

(** ** Sample tables

    Small tables in the shape of the test fixtures, used to run the
    definitions on concrete inputs. *)
Module sample.

Definition friday : Z := datetime._ymd2ord 2012 10 12.

Definition sale (store dept week sales : Z) : Row :=
  mkRow store dept (friday + 7 * week) (Zq sales) false ∅.

Definition feature (store dept week sales : Z) : Feature.t :=
  Feature.mk store dept (friday + 7 * week) (Zq sales) false ∅.

(** Three weeks of one store and department, not in date order. *)
Definition three_weeks : list Row :=
  [sale 1 1 2 150; sale 1 1 0 100; sale 1 1 1 200].

(** Twelve weeks of one series and three of another. *)
Definition history : list Feature.t :=
  map (λ w, feature 1 1 w (1000 + w)) (seqZ 0 12)
  ++ map (λ w, feature 2 1 w (500 + w)) (seqZ 0 3).

(** A table whose dates span two weeks only. *)
Definition short_history : list Feature.t :=
  [feature 1 1 2 150; feature 1 1 0 100; feature 1 1 1 200].

Definition sales : list Sales.t :=
  [Sales.mk 1 1 (friday + 7) (Zq 200) true;
   Sales.mk 1 1 friday (Zq 100) false;
   Sales.mk 2 1 friday (Zq 50) false].

(** Indicators for one of the three sales weeks only. *)
Definition indicators : list Indicator.t :=
  [Indicator.mk 1 friday (Some (Zq 60)) (Some (Zq 3)) (Some (Zq 1000)) None
     None None None (Some (Zq 220)) (Some (Zq 8)) false].

(** Store 2 is missing from the store table. *)
Definition stores : list Store.t := [Store.mk 1 "A" (Some (Zq 150000))].

(** A booster fitted on the single feature of [history]. *)
Definition fitted : Booster :=
  mkBooster (Some ["is_holiday"]) (λ _, Zq 1000) 1 [Zq 5].

Definition untrained : trainer.Forecaster := trainer.mkForecaster None None None.

Definition forecast0 : Forecast.t :=
  Forecast.mk 1 1 (friday + 7) (Zq 900) (Zq 700) (Zq 1100)
    "lightgbm_forecaster" "v1.0" (Zq 85 / Zq 100).

Definition forecast1 : Forecast.t :=
  Forecast.mk 1 1 (friday + 14) (Zq 1000) (Zq 800) (Zq 1200)
    "lightgbm_forecaster" "v1.0" (Zq 85 / Zq 100).

(** A booster that knows no feature names and predicts 1000 everywhere. *)
Definition booster : Booster :=
  mkBooster None (λ _, Zq 1000) 1 [].

(** The latest feature rows of two series. *)
Definition latest : list Feature.t :=
  [Feature.mk 1 1 (datetime._ymd2ord 2012 10 26) (Zq 27390) false
     {[ "sales_lag_1" := VFloat (Fin (Zq 26000)); "temperature" := VFloat (Fin (Zq 58)) ]};
   Feature.mk 2 1 (datetime._ymd2ord 2012 10 19) (Zq 500) false
     {[ "sales_lag_1" := VFloat (Fin (Zq 480)) ]}].

End sample.

(** ** Row-wise reading of the builders *)

(** What [create_temporal_features] writes on one row: the five calendar
    columns of the row's own date. *)
Definition temporal_row (r : Row) : Row :=
  set_col "is_month_end" (VBool (dt.is_month_end (date r)))
    (set_col "is_month_start" (VBool (dt.is_month_start (date r)))
       (set_col "quarter" (VInt (dt.quarter (date r)))
          (set_col "month" (VInt (dt.month (date r)))
             (set_col "week_of_year" (VInt (dt.isocalendar_week (date r))) r)))).

(** * Properties *)

(** ** Arrays and sums *)

Lemma np_broadcast_same_length {A B C} (f : A → B → C) xs ys :
  length xs = length ys → np_broadcast f xs ys = Ok (zip_with f xs ys).
Proof. intros Hlen. unfold np_broadcast. by rewrite decide_True. Qed.







Lemma Zq_pos (z : Z) : 0 < z → (0 < Zq z)%Qc.
Proof.
  intros Hz. unfold Zq, Qc_of_Z, Qclt. simpl.
  unfold Qlt. simpl. lia.
Qed.

Lemma weights_positive (is_holiday : list bool) :
  is_holiday ≠ [] → (0 < np_sum (metrics.weights is_holiday))%Qc.
Proof.
  induction is_holiday as [|h hs IH]; [done|]. intros _. simpl.
  assert (Hh : (0 < (if h then Zq 5 else Zq 1))%Qc)
    by (destruct h; apply Zq_pos; lia).
  destruct hs as [|h' hs].
  - simpl. by rewrite Qcplus_0_r.
  - apply Qcplus_pos_pos; [done|]. by apply IH.
Qed.

Lemma np_divide_finite (a b : Qc) :
  b ≠ 0%Qc → np_divide a b = Fin (a / b)%Qc.
Proof. intros Hb. unfold np_divide. by rewrite decide_False. Qed.


(** ** models/metrics.py: the weighted error *)

Lemma calculate_wmae_same_length y_true y_pred is_holiday :
  length y_true = length is_holiday → length y_pred = length is_holiday →
  metrics.calculate_wmae y_true y_pred is_holiday
  = Ok (np_divide
          (np_sum (zip_with Qcmult (metrics.weights is_holiday)
                     (zip_with (λ a b, Qcabs (a - b)) y_true y_pred)))
          (np_sum (metrics.weights is_holiday))).
Proof.
  intros Ht Hp. unfold metrics.calculate_wmae.
  rewrite np_broadcast_same_length by congruence. simpl.
  rewrite np_broadcast_same_length; [done|].
  unfold metrics.weights. rewrite length_map, length_zip_with. lia.
Qed.






(** Why the errors have to be exact for the flag to move freely: on
    binary64 the four errors 200.1 − 100, weighted 5, 1, 1, 1 and summed
    from left to right, give 800.80000000000007, and weighted 1, 1, 1, 5
    they give 800.79999999999995; divided by the total weight 8, the two
    results differ in the last bits. *)
Section binary64.
Import PrimFloat.

Example binary64_weighted_sum_order :
  let e := (0x1.9033333333333p+7 - 100)%float in
  PrimFloat.eqb ((5 * e + e + e + e) / 8) ((e + e + e + 5 * e) / 8) = false.
Proof. reflexivity. Qed.

End binary64.

(** ** Calendar sanity *)

Example ord2ymd_2012_10_26 :
  datetime._ord2ymd (datetime._ymd2ord 2012 10 26) = (2012, 10, 26)
  ∧ datetime.weekday (datetime._ymd2ord 2012 10 26) = 4
  ∧ datetime.isocalendar_week (datetime._ymd2ord 2012 10 26) = 43
  ∧ datetime.isocalendar_week (datetime._ymd2ord 2012 12 31) = 1
  ∧ datetime.isocalendar_week (datetime._ymd2ord 2010 1 1) = 53
  ∧ datetime._ord2ymd (datetime._ymd2ord 2012 2 29) = (2012, 2, 29)
  ∧ datetime._ord2ymd (datetime._ymd2ord 2000 12 31) = (2000, 12, 31).
Proof. repeat split; reflexivity. Qed.

(** C8 (amended): on empty arrays [calculate_wmae] raises nothing; it
    returns the nan of the division 0/0. *)
Theorem calculate_wmae_empty_returns_nan :
  metrics.calculate_wmae [] [] [] = Ok NaN.
Proof. reflexivity. Qed.

(** C8 (as stated) fails: the call on empty arrays does not end in an
    exception. *)
Lemma calculate_wmae_empty_not_raised :
  ¬ ∃ e, metrics.calculate_wmae [] [] [] = Raise e.
Proof. intros [e He]. vm_compute in He. discriminate. Qed.

(** ** Sorting *)

Section sorting.
Context {A : Type} (leb : A → A → bool).

Lemma insert_by_perm (x : A) (l : list A) : insert_by leb x l ≡ₚ x :: l.
Proof.
  induction l as [|y l IH]; simpl; [done|].
  destruct (leb x y); [done|].
  rewrite IH. apply Permutation_swap.
Qed.

Lemma sort_by_perm (l : list A) : sort_by leb l ≡ₚ l.
Proof.
  induction l as [|x l IH]; simpl; [done|].
  unfold sort_by in *. simpl. rewrite insert_by_perm. by rewrite IH.
Qed.

Lemma sort_by_length (l : list A) : length (sort_by leb l) = length l.
Proof. apply Permutation_length, sort_by_perm. Qed.

Hypothesis leb_total : ∀ a b, leb a b = true ∨ leb b a = true.
Hypothesis leb_trans : ∀ a b c, leb a b = true → leb b c = true → leb a c = true.

Lemma insert_by_sorted (x : A) (l : list A) :
  Sorted (λ a b, leb a b = true) l →
  Sorted (λ a b, leb a b = true) (insert_by leb x l).
Proof.
  induction l as [|y l IH]; intros Hs; simpl.
  - by repeat constructor.
  - destruct (leb x y) eqn:Hxy.
    + constructor; [done | by constructor].
    + apply Sorted_inv in Hs as [Hs Hhd].
      constructor; [by apply IH|].
      destruct l as [|z l]; simpl.
      * constructor. destruct (leb_total x y); congruence.
      * destruct (leb x z).
        -- constructor. destruct (leb_total x y); congruence.
        -- constructor. by apply HdRel_inv in Hhd.
Qed.

Lemma sort_by_sorted (l : list A) :
  StronglySorted (λ a b, leb a b = true) (sort_by leb l).
Proof.
  apply Sorted_StronglySorted.
  - intros a b c. apply leb_trans.
  - induction l as [|x l IH]; [constructor|].
    unfold sort_by in *. simpl. by apply insert_by_sorted.
Qed.

End sorting.

Lemma lex_leb_total (a b : list Z) : lex_leb a b = true ∨ lex_leb b a = true.
Proof.
  revert b. induction a as [|x a IH]; intros [|y b]; simpl; auto.
  destruct (IH b) as [H|H]; rewrite H;
    destruct (Z.ltb_spec x y), (Z.ltb_spec y x), (Z.eqb_spec x y),
      (Z.eqb_spec y x); simpl; auto; lia.
Qed.

Lemma lex_leb_trans (a b c : list Z) :
  lex_leb a b = true → lex_leb b c = true → lex_leb a c = true.
Proof.
  revert b c. induction a as [|x a IH]; intros [|y b] [|z c]; simpl; try done.
  intros Hab Hbc.
  apply orb_true_iff in Hab as [Hab|Hab]; apply orb_true_iff in Hbc as [Hbc|Hbc];
    apply orb_true_iff;
    repeat match goal with
           | H : (_ && _) = true |- _ => apply andb_true_iff in H as [? ?]
           | H : (_ <? _) = true |- _ => apply Z.ltb_lt in H
           | H : (_ =? _) = true |- _ => apply Z.eqb_eq in H
           end.
  - left. apply Z.ltb_lt. lia.
  - left. apply Z.ltb_lt. lia.
  - left. apply Z.ltb_lt. lia.
  - right. apply andb_true_iff. split; [apply Z.eqb_eq; lia|]. by eapply IH.
Qed.


Lemma sort_values_perm {A} (by_ : A → list Z) (df : list A) :
  sort_values by_ df ≡ₚ df.
Proof. apply sort_by_perm. Qed.

Lemma sort_values_length {A} (by_ : A → list Z) (df : list A) :
  length (sort_values by_ df) = length df.
Proof. apply sort_by_length. Qed.

Lemma sort_values_sorted {A} (by_ : A → list Z) (df : list A) :
  StronglySorted (λ a b, lex_leb (by_ a) (by_ b) = true) (sort_values by_ df).
Proof.
  apply sort_by_sorted.
  - intros a b. apply lex_leb_total.
  - intros a b c. apply lex_leb_trans.
Qed.


(** ** models/trainer.py: the temporal split *)

Lemma foldr_max_spec (d : Z) (ds : list Z) :
  (foldr Z.max d ds = d ∨ foldr Z.max d ds ∈ ds)
  ∧ d ≤ foldr Z.max d ds ∧ Forall (λ x, x ≤ foldr Z.max d ds) ds.
Proof.
  induction ds as [|x ds (Hin & Hd & Hall)]; simpl.
  - repeat split; [by left | lia | constructor].
  - repeat split.
    + destruct (Z.max_spec x (foldr Z.max d ds)) as [[_ ->]|[_ ->]].
      * destruct Hin as [->|Hin]; [by left | right; by right].
      * right. left.
    + lia.
    + constructor; [lia|]. eapply Forall_impl; [exact Hall|]. simpl. lia.
Qed.

Lemma foldr_min_spec (d : Z) (ds : list Z) :
  (foldr Z.min d ds = d ∨ foldr Z.min d ds ∈ ds)
  ∧ foldr Z.min d ds ≤ d ∧ Forall (λ x, foldr Z.min d ds ≤ x) ds.
Proof.
  induction ds as [|x ds (Hin & Hd & Hall)]; simpl.
  - repeat split; [by left | lia | constructor].
  - repeat split.
    + destruct (Z.min_spec x (foldr Z.min d ds)) as [[_ ->]|[_ ->]].
      * right. left.
      * destruct Hin as [->|Hin]; [by left | right; by right].
    + lia.
    + constructor; [lia|]. eapply Forall_impl; [exact Hall|]. simpl. lia.
Qed.

Lemma max_date_spec (df : list Feature.t) (m : Z) :
  Feature.max_date df = Some m ↔
  (∃ r, r ∈ df ∧ Feature.feature_date r = m)
  ∧ ∀ r, r ∈ df → Feature.feature_date r ≤ m.
Proof.
  destruct df as [|r df]; simpl.
  - split; [done|]. intros [(r & Hr & _) _]. by apply elem_of_nil in Hr.
  - pose proof (foldr_max_spec (Feature.feature_date r)
                  (map Feature.feature_date df)) as (Hin & Hd & Hall).
    assert (Hmax : (∃ r', r' ∈ r :: df
                     ∧ Feature.feature_date r'
                       = foldr Z.max (Feature.feature_date r)
                           (map Feature.feature_date df))
                   ∧ ∀ r', r' ∈ r :: df →
                       Feature.feature_date r'
                       ≤ foldr Z.max (Feature.feature_date r)
                           (map Feature.feature_date df)).
    { split.
      - destruct Hin as [Hin|Hin].
        + exists r. split; [left | done].
        + apply list_elem_of_fmap in Hin as (r' & Heq & Hr').
          exists r'. split; [by right | done].
      - intros r' Hr'. apply elem_of_cons in Hr' as [->|Hr']; [done|].
        rewrite Forall_forall in Hall. apply Hall.
        by apply list_elem_of_fmap_2. }
    split.
    + intros [= <-]. exact Hmax.
    + intros [(r1 & Hr1 & Hm1) Hle]. f_equal.
      destruct Hmax as [(r2 & Hr2 & Hm2) Hle2].
      specialize (Hle r2 Hr2). specialize (Hle2 r1 Hr1). lia.
Qed.

Lemma min_date_spec (df : list Feature.t) (m : Z) :
  Feature.min_date df = Some m ↔
  (∃ r, r ∈ df ∧ Feature.feature_date r = m)
  ∧ ∀ r, r ∈ df → m ≤ Feature.feature_date r.
Proof.
  destruct df as [|r df]; simpl.
  - split; [done|]. intros [(r & Hr & _) _]. by apply elem_of_nil in Hr.
  - pose proof (foldr_min_spec (Feature.feature_date r)
                  (map Feature.feature_date df)) as (Hin & Hd & Hall).
    assert (Hmin : (∃ r', r' ∈ r :: df
                     ∧ Feature.feature_date r'
                       = foldr Z.min (Feature.feature_date r)
                           (map Feature.feature_date df))
                   ∧ ∀ r', r' ∈ r :: df →
                       foldr Z.min (Feature.feature_date r)
                           (map Feature.feature_date df)
                       ≤ Feature.feature_date r').
    { split.
      - destruct Hin as [Hin|Hin].
        + exists r. split; [left | done].
        + apply list_elem_of_fmap in Hin as (r' & Heq & Hr').
          exists r'. split; [by right | done].
      - intros r' Hr'. apply elem_of_cons in Hr' as [->|Hr']; [done|].
        rewrite Forall_forall in Hall. apply Hall.
        by apply list_elem_of_fmap_2. }
    split.
    + intros [= <-]. exact Hmin.
    + intros [(r1 & Hr1 & Hm1) Hle]. f_equal.
      destruct Hmin as [(r2 & Hr2 & Hm2) Hle2].
      specialize (Hle r2 Hr2). specialize (Hle2 r1 Hr1). lia.
Qed.

Lemma max_date_perm (df df' : list Feature.t) :
  df ≡ₚ df' → Feature.max_date df = Feature.max_date df'.
Proof.
  intros Hp. destruct (Feature.max_date df) as [m|] eqn:Hm.
  - symmetry. apply max_date_spec. apply max_date_spec in Hm as [(r & Hr & Hd) Hle].
    split.
    + exists r. by rewrite <-Hp.
    + intros r' Hr'. apply Hle. by rewrite Hp.
  - destruct df; [|done]. apply Permutation_nil_l in Hp. by subst.
Qed.

Lemma filter_split_length {A} (f g : A → bool) (l : list A) :
  (∀ x, g x = negb (f x)) →
  (length (List.filter f l) + length (List.filter g l))%nat = length l.
Proof.
  intros Hfg. induction l as [|x l IH]; simpl; [done|].
  rewrite Hfg. destruct (f x); simpl; lia.
Qed.

Lemma filter_split_perm {A} (f g : A → bool) (l : list A) :
  (∀ x, g x = negb (f x)) → List.filter f l ++ List.filter g l ≡ₚ l.
Proof.
  intros Hfg. induction l as [|x l IH]; simpl; [done|].
  rewrite Hfg. destruct (f x); simpl.
  - by rewrite IH.
  - rewrite <-Permutation_middle. by rewrite IH.
Qed.

Lemma elem_of_List_filter {A} (f : A → bool) (l : list A) (x : A) :
  x ∈ List.filter f l ↔ x ∈ l ∧ f x = true.
Proof. rewrite !list_elem_of_In. apply filter_In. Qed.

(** C2: for a non-empty feature table and val_weeks ≥ 1, a split that
    [create_train_val_split] returns is cut at max(feature_date) −
    val_weeks weeks: the rows strictly before the cutoff are the train
    part and the rows on or after it the validation part, no row is lost
    or duplicated, and the latest train date is before the earliest
    validation date whenever both parts are non-empty.  The call returns
    whenever val_weeks weeks fit a pandas timedelta and the cutoff and
    the latest date are pandas timestamps. *)
Theorem create_train_val_split_no_overlap (df : list Feature.t) (val_weeks : Z) :
  df ≠ [] → 1 ≤ val_weeks →
  ∃ max_date : Z,
    Feature.max_date df = Some max_date
    ∧ (val_weeks ≤ pd.Timedelta_max_weeks →
       pd.Timestamp_min ≤ max_date - 7 * val_weeks →
       max_date ≤ pd.Timestamp_max →
       ∃ s, trainer.create_train_val_split df val_weeks = Ok s)
    ∧ ∀ s : trainer.Split,
        trainer.create_train_val_split df val_weeks = Ok s →
        (∀ r, r ∈ trainer.train_df s ↔
              r ∈ df ∧ Feature.feature_date r < max_date - 7 * val_weeks)
        ∧ (∀ r, r ∈ trainer.val_df s ↔
                r ∈ df ∧ max_date - 7 * val_weeks ≤ Feature.feature_date r)
        ∧ trainer.train_df s ++ trainer.val_df s ≡ₚ df
        ∧ (length (trainer.train_df s) + length (trainer.val_df s))%nat = length df
        ∧ (∀ a b, Feature.max_date (trainer.train_df s) = Some a →
                  Feature.min_date (trainer.val_df s) = Some b → a < b).
Proof.
  intros Hne _.
  destruct (Feature.max_date df) as [m|] eqn:Hm; [|by destruct df].
  set (sorted := sort_values (λ r, [Feature.feature_date r]) df).
  assert (Hp : sorted ≡ₚ df) by apply sort_values_perm.
  assert (Hms : Feature.max_date sorted = Some m) by (by rewrite (max_date_perm _ _ Hp)).
  assert (Hrun : ∃ s, trainer.create_train_val_split df val_weeks = Ok s
            ∧ trainer.train_df s
              = List.filter (λ r, Feature.feature_date r <? m - 7 * val_weeks) sorted
            ∧ trainer.val_df s
              = List.filter (λ r, m - 7 * val_weeks <=? Feature.feature_date r) sorted).
  { eexists. split.
    { unfold trainer.create_train_val_split. fold sorted. rewrite Hms. simpl.
      reflexivity. }
    by simpl. }
  destruct Hrun as (s0 & Hs0 & Htrain & Hval).
  exists m. split; [done|]. split; [by exists s0|].
  intros s Hs. rewrite Hs0 in Hs. injection Hs as <-.
  rewrite Htrain, Hval.
  assert (Hcompl : ∀ x : Feature.t,
            (m - 7 * val_weeks <=? Feature.feature_date x)
            = negb (Feature.feature_date x <? m - 7 * val_weeks)).
  { intros x. destruct (Z.leb_spec (m - 7 * val_weeks) (Feature.feature_date x)),
      (Z.ltb_spec (Feature.feature_date x) (m - 7 * val_weeks)); simpl; lia. }
  split_and!.
  - intros r. by rewrite elem_of_List_filter, Hp, Z.ltb_lt.
  - intros r. by rewrite elem_of_List_filter, Hp, Z.leb_le.
  - etrans; [by apply filter_split_perm | done].
  - rewrite <-(Permutation_length Hp). by apply filter_split_length.
  - intros a b Ha Hb.
    apply max_date_spec in Ha as [(ra & Hra & <-) _].
    apply min_date_spec in Hb as [(rb & Hrb & <-) _].
    apply elem_of_List_filter in Hra as [_ Hra].
    apply elem_of_List_filter in Hrb as [_ Hrb].
    apply Z.ltb_lt in Hra. apply Z.leb_le in Hrb. lia.
Qed.

Lemma create_train_val_split_no_overlap_witness :
  ∃ max_date : Z,
    Feature.max_date sample.history = Some max_date
    ∧ (8 ≤ pd.Timedelta_max_weeks →
       pd.Timestamp_min ≤ max_date - 7 * 8 →
       max_date ≤ pd.Timestamp_max →
       ∃ s, trainer.create_train_val_split sample.history 8 = Ok s)
    ∧ ∀ s : trainer.Split,
        trainer.create_train_val_split sample.history 8 = Ok s →
        (∀ r, r ∈ trainer.train_df s ↔
              r ∈ sample.history ∧ Feature.feature_date r < max_date - 7 * 8)
        ∧ (∀ r, r ∈ trainer.val_df s ↔
                r ∈ sample.history ∧ max_date - 7 * 8 ≤ Feature.feature_date r)
        ∧ trainer.train_df s ++ trainer.val_df s ≡ₚ sample.history
        ∧ (length (trainer.train_df s) + length (trainer.val_df s))%nat
          = length sample.history
        ∧ (∀ a b, Feature.max_date (trainer.train_df s) = Some a →
                  Feature.min_date (trainer.val_df s) = Some b → a < b).
Proof.
  apply (create_train_val_split_no_overlap sample.history 8);
    [discriminate | lia].
Defined.

Lemma List_filter_none {A} (f : A → bool) (l : list A) :
  (∀ x, x ∈ l → f x = false) → List.filter f l = [].
Proof.
  induction l as [|x l IH]; intros Hall; simpl; [done|].
  rewrite (Hall x) by left. apply IH. intros y Hy. apply Hall. by right.
Qed.

Lemma List_filter_all {A} (f : A → bool) (l : list A) :
  (∀ x, x ∈ l → f x = true) → List.filter f l = l.
Proof.
  induction l as [|x l IH]; intros Hall; simpl; [done|].
  rewrite (Hall x) by left. f_equal. apply IH. intros y Hy. apply Hall. by right.
Qed.

(** C9 (amended): when the dates span no more than val_weeks weeks, and
    val_weeks weeks fit a pandas timedelta and the cutoff and the latest
    date are pandas timestamps, the split raises nothing: it returns an
    empty train partition and every row in validation, and the only log
    lines are the usual ones at level INFO. *)
Theorem create_train_val_split_short_span (df : list Feature.t)
    (val_weeks latest earliest : Z) :
  Feature.max_date df = Some latest → Feature.min_date df = Some earliest →
  latest - earliest ≤ 7 * val_weeks →
  val_weeks ≤ pd.Timedelta_max_weeks →
  pd.Timestamp_min ≤ latest - 7 * val_weeks →
  latest ≤ pd.Timestamp_max →
  ∃ s, trainer.create_train_val_split df val_weeks = Ok s
       ∧ trainer.train_df s = []
       ∧ trainer.val_df s ≡ₚ df
       ∧ Forall (λ l, levelname l = INFO) (trainer.log s).
Proof.
  intros Hmax Hmin Hspan _ _ _.
  set (sorted := sort_values (λ r, [Feature.feature_date r]) df).
  assert (Hp : sorted ≡ₚ df) by apply sort_values_perm.
  assert (Hms : Feature.max_date sorted = Some latest)
    by (by rewrite (max_date_perm _ _ Hp)).
  apply min_date_spec in Hmin as [_ Hge].
  eexists. split.
  { unfold trainer.create_train_val_split. fold sorted. rewrite Hms. simpl.
    reflexivity. }
  simpl. split_and!.
  - apply List_filter_none. intros r Hr. rewrite Hp in Hr.
    specialize (Hge r Hr). apply Z.ltb_ge. lia.
  - rewrite List_filter_all; [done|]. intros r Hr. rewrite Hp in Hr.
    specialize (Hge r Hr). apply Z.leb_le. lia.
  - repeat constructor.
Qed.

Lemma create_train_val_split_short_span_witness :
  ∃ s, trainer.create_train_val_split sample.short_history 8 = Ok s
       ∧ trainer.train_df s = []
       ∧ trainer.val_df s ≡ₚ sample.short_history
       ∧ Forall (λ l, levelname l = INFO) (trainer.log s).
Proof.
  apply (create_train_val_split_short_span sample.short_history 8
           (sample.friday + 14) sample.friday);
    [reflexivity | reflexivity | lia | by vm_compute | by vm_compute | by vm_compute].
Defined.

(** C9 (as stated) fails: a table spanning two weeks, split with
    val_weeks = 8, is returned with an empty train partition, no
    exception, and nothing logged above level INFO. *)
Lemma create_train_val_split_short_span_silent :
  ∃ s, trainer.create_train_val_split sample.short_history 8 = Ok s
       ∧ trainer.train_df s = []
       ∧ length (trainer.val_df s) = 3%nat
       ∧ Forall (λ l, levelname l = INFO) (trainer.log s).
Proof.
  eexists. split; [reflexivity|]. split_and!; [reflexivity | reflexivity |].
  repeat constructor.
Qed.

(** ** groupby: every group sees exactly its own rows *)

Section groupby.
Context {A B : Type} (key : A → list Z) (f : list A → list B) (dflt : B).
Hypothesis f_length : ∀ g, length (f g) = length g.

Lemma length_groupby_from (df : list A) (pos : nat) (rest : list A) :
  length (groupby_from key f dflt df pos rest) = length rest.
Proof.
  revert pos. induction rest as [|r rest IH]; intros pos; simpl; [done|].
  by rewrite IH.
Qed.

Lemma length_groupby_transform (df : list A) :
  length (groupby_transform key f dflt df) = length df.
Proof. apply length_groupby_from. Qed.



End groupby.



(** ** data_pipeline/feature_engineering.py: lag features *)

Lemma base_set_col (c : string) (v : cell) (r : Row) : base (set_col c v r) = base r.
Proof. done. Qed.

Lemma fmap_base_assign (c : string) (vals : list cell) (df : list Row) :
  length vals = length df → base <$> assign c vals df = base <$> df.
Proof.
  unfold assign. revert vals.
  induction df as [|r df IH]; intros [|v vals] Hlen; simpl in *; try lia; [done|].
  f_equal. apply IH. lia.
Qed.










Lemma create_lag_features_unfold (df : list Row) (lags : list Z) :
  create_lag_features df lags
  = foldl lag_step (sort_values store_dept_date df) lags.
Proof. done. Qed.






(** Why the key matters: the sort is stable and looks at (store_id,
    dept_id, date) only, so two rows that share all three, which the key
    of the sales records rules out, would keep their input order and the
    lag columns would follow it. *)
Example create_lag_features_duplicate_key :
  let a := sample.sale 1 1 0 100 in
  let b := sample.sale 1 1 0 200 in
  [b; a] ≡ₚ [a; b]
  ∧ (λ r, (weekly_sales r, cols r !! lag_label 1)) <$> create_lag_features [a; b] [1]
    = [(Zq 100, Some VNaN); (Zq 200, Some (VFloat (Fin (Zq 100))))]
  ∧ (λ r, (weekly_sales r, cols r !! lag_label 1)) <$> create_lag_features [b; a] [1]
    = [(Zq 200, Some VNaN); (Zq 100, Some (VFloat (Fin (Zq 200))))]
  ∧ create_lag_features [b; a] [1] ≠ create_lag_features [a; b] [1].
Proof.
  intros a b. split_and!.
  - apply Permutation_swap.
  - vm_compute. reflexivity.
  - vm_compute. reflexivity.
  - intros Heq.
    apply (f_equal (λ l, (λ r, Qnum (this (weekly_sales r))) <$> head l)) in Heq.
    vm_compute in Heq. discriminate.
Qed.

(** The scenario of the specification: sales 100, 200, 150 in date order
    give lag_1 = nan, 100, 200. *)
Example lag_scenario :
  (λ r, cols r !! lag_label 1) <$> create_lag_features sample.three_weeks [1]
  = [Some VNaN; Some (VFloat (Fin (Zq 100))); Some (VFloat (Fin (Zq 200)))].
Proof. vm_compute. reflexivity. Qed.

(** ** data_pipeline/feature_engineering.py: the pipeline keeps every row *)

Lemma length_assign (c : string) (vals : list cell) (df : list Row) :
  length vals = length df → length (assign c vals df) = length df.
Proof. intros Hlen. unfold assign. rewrite length_zip_with. lia. Qed.

Lemma Forall_assign (Q : Row → Prop) (c : string) (vals : list cell) (df : list Row) :
  (∀ v r, r ∈ df → Q (set_col c v r)) → Forall Q (assign c vals df).
Proof.
  unfold assign. revert vals.
  induction df as [|r df IH]; intros [|v vals] HQ; simpl; try constructor.
  - apply HQ. left.
  - apply IH. intros v' r' Hr'. apply HQ. by right.
Qed.

Lemma carries_assign (present : list string) (c : string) (vals : list cell)
    (df : list Row) :
  c ≠ "store_type" → c ≠ "size" →
  carries present df → carries (c :: present) (assign c vals df).
Proof.
  intros H1 H2 Hc. apply Forall_assign. intros v r Hr.
  unfold carries in Hc. rewrite Forall_forall in Hc.
  destruct (Hc r Hr) as (Hp & Ht & Hs). simpl. split_and!.
  - intros c' Hc'. apply lookup_insert_is_Some'.
    apply elem_of_cons in Hc' as [->|Hc']; [by left | right; by apply Hp].
  - by rewrite lookup_insert_ne.
  - by rewrite lookup_insert_ne.
Qed.

Lemma carries_weaken (present present' : list string) (df : list Row) :
  (∀ c, c ∈ present' → c ∈ present) → carries present df → carries present' df.
Proof.
  intros Hsub Hc. unfold carries in *. eapply Forall_impl; [exact Hc|].
  intros r (Hp & Ht & Hs). split_and!; [|done|done].
  intros c Hc'. by apply Hp, Hsub.
Qed.

Lemma carries_assign_keep (present : list string) (c : string) (vals : list cell)
    (df : list Row) :
  c ≠ "store_type" → c ≠ "size" →
  carries present df → carries present (assign c vals df).
Proof.
  intros H1 H2 Hc. apply (carries_weaken (c :: present)); [by right|].
  by apply carries_assign.
Qed.

Lemma carries_perm (present : list string) (df df' : list Row) :
  df ≡ₚ df' → carries present df → carries present df'.
Proof. intros Hp Hc. unfold carries in *. by rewrite <-Hp. Qed.

Lemma carries_sort (present : list string) (by_ : Row → list Z) (df : list Row) :
  carries present df → carries present (sort_values by_ df).
Proof. apply carries_perm. symmetry. apply sort_values_perm. Qed.

Lemma has_column_carries (present : list string) (c : string) (df : list Row) :
  carries present df → c ∈ present → has_column c df = true.
Proof.
  intros Hc Hin. unfold has_column. apply forallb_forall. intros r Hr.
  apply bool_decide_eq_true. unfold carries in Hc. rewrite Forall_forall in Hc.
  apply list_elem_of_In in Hr. by apply (Hc r Hr).
Qed.

Lemma column_carries (present : list string) (c : string) (df : list Row) :
  carries present df → c ∈ present →
  column c df = Ok (map (λ r, default VNaN (cols r !! c)) df).
Proof.
  intros Hc Hin. unfold column. by rewrite (has_column_carries present).
Qed.

Lemma select_carries (present cs : list string) (df : list Row) :
  carries present df → (∀ c, c ∈ cs → c ∈ present) →
  select cs df = Ok (map (λ r, map (λ c, default VNaN (cols r !! c)) cs) df).
Proof.
  intros Hc Hsub. unfold select.
  rewrite List_filter_none; [done|].
  intros c Hin. rewrite (has_column_carries present); [done|done|by apply Hsub].
Qed.

(** *** The left joins *)

Lemma filter_unique_key {R K} (key : R → K) (k : K) (on : R → bool)
    (right : list R) :
  NoDup (key <$> right) → (∀ m, on m = true → key m = k) →
  (length (List.filter on right) ≤ 1)%nat.
Proof.
  intros Hnd Hon. induction right as [|m right IH]; simpl; [lia|].
  rewrite fmap_cons in Hnd. apply NoDup_cons in Hnd as [Hnin Hnd].
  destruct (on m) eqn:Hm; [|by apply IH].
  rewrite List_filter_none; [simpl; lia|].
  intros m' Hm'. destruct (on m') eqn:Hm''; [|done].
  exfalso. apply Hnin. rewrite (Hon m Hm), <-(Hon m' Hm'').
  by apply list_elem_of_fmap_2.
Qed.

Lemma length_merge_left {R} (on : Row → R → bool) (series : R → gmap string cell)
    (right_cols : list string) (lsuffix rsuffix : string)
    (left : list Row) (right : list R) :
  (∀ l, (length (List.filter (on l) right) ≤ 1)%nat) →
  length (merge_left on series right_cols lsuffix rsuffix left right) = length left.
Proof.
  intros Huniq. unfold merge_left.
  induction left as [|l left IH]; cbn [flat_map]; [done|].
  rewrite length_app, IH. cbn [length]. f_equal.
  specialize (Huniq l). destruct (List.filter (on l) right) as [|m [|m' ms]];
    simpl in *; (done || lia).
Qed.

Lemma Forall_merge_left {R} (Q : Row → Prop) (on : Row → R → bool)
    (series : R → gmap string cell) (right_cols : list string)
    (lsuffix rsuffix : string) (left : list Row) (right : list R) :
  (∀ l s, l ∈ left → Q (merge_row lsuffix rsuffix right_cols l s)) →
  Forall Q (merge_left on series right_cols lsuffix rsuffix left right).
Proof.
  intros HQ. unfold merge_left.
  induction left as [|l left IH]; cbn [flat_map]; [constructor|].
  apply Forall_app. split.
  - destruct (List.filter (on l) right) as [|m ms].
    + constructor; [|constructor]. apply HQ. left.
    + apply Forall_forall. intros r Hr.
      change (r ∈ (λ m, merge_row lsuffix rsuffix right_cols l (series m)) <$> (m :: ms)) in Hr.
      apply list_elem_of_fmap in Hr as (m' & -> & _). apply HQ. left.
  - apply IH. intros l' s Hl'. apply HQ. by right.
Qed.

Lemma merge_row_sales (s : Sales.t) (ser : gmap string cell) :
  let r := merge_row "" "_feat" Indicator.columns (Sales.row s) ser in
  (∀ c, c ∈ indicator_cols → is_Some (cols r !! c))
  ∧ cols r !! "store_type" = None ∧ cols r !! "size" = None.
Proof.
  destruct s. unfold merge_row, Sales.row. cbn [cols]. split_and!.
  - intros c Hc. unfold indicator_cols in Hc.
    repeat (apply elem_of_cons in Hc as [->|Hc];
            [vm_compute; eexists; reflexivity|]).
    by apply elem_of_nil in Hc.
  - vm_compute. reflexivity.
  - vm_compute. reflexivity.
Qed.

Lemma carries_drop (present : list string) (c : string) (df : list Row) :
  c ∉ present → carries present df → carries present (map (drop_col c) df).
Proof.
  intros Hnin Hc. unfold carries in *.
  change (Forall (λ r, (∀ c, c ∈ present → is_Some (cols r !! c))
                       ∧ cols r !! "store_type" = None
                       ∧ cols r !! "size" = None) (drop_col c <$> df)).
  apply Forall_fmap. eapply Forall_impl; [exact Hc|].
  intros r (Hp & Ht & Hs). simpl. split_and!.
  - intros c' Hc'. rewrite lookup_delete_ne by (intros ->; done). by apply Hp.
  - destruct (decide (c = "store_type")) as [->|];
      [apply lookup_delete_eq | by rewrite lookup_delete_ne].
  - destruct (decide (c = "size")) as [->|];
      [apply lookup_delete_eq | by rewrite lookup_delete_ne].
Qed.

Lemma same_records_refl (df : list Row) : same_records df df.
Proof. unfold same_records. reflexivity. Qed.

Lemma same_records_trans (df1 df2 df3 : list Row) :
  same_records df1 df2 → same_records df2 df3 → same_records df1 df3.
Proof. unfold same_records. intros H1 H2. by rewrite H2. Qed.

Lemma same_records_length (df out : list Row) :
  same_records df out → length out = length df.
Proof.
  intros H. apply Permutation_length in H. by rewrite !length_fmap in H.
Qed.

Lemma same_records_assign (c : string) (vals : list cell) (df : list Row) :
  length vals = length df → same_records df (assign c vals df).
Proof. intros Hlen. unfold same_records. by rewrite fmap_base_assign. Qed.

Lemma same_records_sort (by_ : Row → list Z) (df : list Row) :
  same_records df (sort_values by_ df).
Proof. unfold same_records. apply fmap_Permutation, sort_values_perm. Qed.

Lemma same_records_map (g : Row → Row) (df : list Row) :
  (∀ r, base (g r) = base r) → same_records df (map g df).
Proof.
  intros Hg. unfold same_records.
  change (base <$> (g <$> df) ≡ₚ base <$> df).
  rewrite <-list_fmap_compose.
  erewrite list_fmap_ext; [done|]. intros i r _. apply Hg.
Qed.

Lemma same_records_merge_left {R} (on : Row → R → bool)
    (series : R → gmap string cell) (right_cols : list string)
    (lsuffix rsuffix : string) (left : list Row) (right : list R) :
  (∀ l, (length (List.filter (on l) right) ≤ 1)%nat) →
  same_records left (merge_left on series right_cols lsuffix rsuffix left right).
Proof.
  intros Huniq. unfold same_records, merge_left.
  induction left as [|l left IH]; cbn [flat_map]; [done|].
  rewrite fmap_app, fmap_cons, IH.
  specialize (Huniq l). destruct (List.filter (on l) right) as [|m [|m' ms]];
    simpl in *; (done || lia).
Qed.

(** *** The builders between the joins *)

Lemma create_temporal_features_rows (present : list string) (df : list Row) :
  same_records df (create_temporal_features df)
  ∧ (carries present df → carries present (create_temporal_features df)).
Proof.
  unfold create_temporal_features. split.
  - repeat (eapply same_records_trans;
            [|apply same_records_assign; by rewrite length_map]).
    apply same_records_refl.
  - intros Hc. repeat (apply carries_assign_keep; [done|done|]). done.
Qed.

Lemma lag_step_rows (present : list string) (df : list Row) (lag : Z) :
  same_records df (lag_step df lag)
  ∧ (carries present df → carries present (lag_step df lag)).
Proof.
  unfold lag_step. split.
  - apply same_records_assign. by apply length_groupby_transform.
  - apply carries_assign_keep; unfold lag_label; simpl; discriminate.
Qed.

Lemma create_lag_features_rows (present : list string) (df : list Row)
    (lags : list Z) :
  same_records df (create_lag_features df lags)
  ∧ (carries present df → carries present (create_lag_features df lags)).
Proof.
  rewrite create_lag_features_unfold.
  assert (Hfold : ∀ cur, same_records cur (foldl lag_step cur lags)
                         ∧ (carries present cur →
                            carries present (foldl lag_step cur lags))).
  { induction lags as [|k lags IH]; intros cur; simpl.
    { split; [apply same_records_refl | done]. }
    destruct (IH (lag_step cur k)) as [Hl Hc].
    destruct (lag_step_rows present cur k) as [Hl' Hc'].
    split; [by eapply same_records_trans | auto]. }
  destruct (Hfold (sort_values store_dept_date df)) as [Hl Hc]. split.
  - eapply same_records_trans; [apply same_records_sort | done].
  - intros H. by apply Hc, carries_sort.
Qed.

Section pipeline_rows.
Variable sqrt : Qc → Qc.
Variable present : list string.

Lemma rolling_column_rows (label : string) (window : Z) (agg : list Qc → float)
    (df : list Row) :
  label +:+ pretty window ≠ "store_type" → label +:+ pretty window ≠ "size" →
  same_records df (rolling_column label window agg df)
  ∧ (carries present df → carries present (rolling_column label window agg df)).
Proof.
  intros H1 H2. unfold rolling_column. split.
  - apply same_records_assign. by apply length_groupby_transform.
  - by apply carries_assign_keep.
Qed.

Lemma create_rolling_features_rows (df : list Row) (windows : list Z) :
  Forall (λ w, 1 ≤ w) windows →
  ∃ out, create_rolling_features sqrt df windows = Ok out
         ∧ same_records df out
         ∧ (carries present df → carries present out).
Proof.
  intros Hw. unfold create_rolling_features.
  assert (Hfold : ∀ cur,
    ∃ out,
      foldl (λ acc window,
               df ← acc;
               if window <? 1 then Raise (ValueError "min_periods must be <= window")
               else
                 let df := rolling_column "rolling_mean_" window mean_of df in
                 let df := rolling_column "rolling_std_" window (std_of sqrt) df in
                 if window =? 4 then
                   let df := rolling_column "rolling_min_" window min_of df in
                   let df := rolling_column "rolling_max_" window max_of df in
                   Ok df
                 else Ok df)
            (Ok cur) windows = Ok out
      ∧ same_records cur out
      ∧ (carries present cur → carries present out)).
  { induction Hw as [|w windows Hw1 Hw IH]; intros cur; simpl.
    - exists cur. split_and!; [done | apply same_records_refl | done].
    - destruct (Z.ltb_spec w 1) as [?|_]; [lia|].
      pose proof (rolling_column_rows "rolling_mean_" w mean_of cur
                    ltac:(simpl; discriminate) ltac:(simpl; discriminate))
        as [Hl1 Hc1].
      set (df1 := rolling_column "rolling_mean_" w mean_of cur) in *.
      pose proof (rolling_column_rows "rolling_std_" w (std_of sqrt) df1
                    ltac:(simpl; discriminate) ltac:(simpl; discriminate))
        as [Hl2 Hc2].
      set (df2 := rolling_column "rolling_std_" w (std_of sqrt) df1) in *.
      destruct (w =? 4).
      + pose proof (rolling_column_rows "rolling_min_" w min_of df2
                      ltac:(simpl; discriminate) ltac:(simpl; discriminate))
          as [Hl3 Hc3].
        set (df3 := rolling_column "rolling_min_" w min_of df2) in *.
        pose proof (rolling_column_rows "rolling_max_" w max_of df3
                      ltac:(simpl; discriminate) ltac:(simpl; discriminate))
          as [Hl4 Hc4].
        set (df4 := rolling_column "rolling_max_" w max_of df3) in *.
        destruct (IH df4) as (out & Hout & Hlen & Hc).
        exists out. split_and!; [exact Hout | |].
        * repeat (eapply same_records_trans; [eassumption|]). apply same_records_refl.
        * intros H. by apply Hc, Hc4, Hc3, Hc2, Hc1.
      + destruct (IH df2) as (out & Hout & Hlen & Hc).
        exists out. split_and!; [exact Hout | |].
        * repeat (eapply same_records_trans; [eassumption|]). apply same_records_refl.
        * intros H. by apply Hc, Hc2, Hc1. }
  destruct (Hfold (sort_values store_dept_date df)) as (out & Hout & Hlen & Hc).
  exists out. split_and!; [done | |].
  - eapply same_records_trans; [apply same_records_sort | done].
  - intros H. by apply Hc, carries_sort.
Qed.

Lemma store_transform_rows (c out : string) (f : list cell → list cell)
    (df : list Row) :
  c ∈ present → out ≠ "store_type" → out ≠ "size" →
  (∀ xs, length (f xs) = length xs) →
  carries present df →
  ∃ df', store_transform c out f df = Ok df'
         ∧ same_records df df' ∧ carries present df'.
Proof.
  intros Hin H1 H2 Hf Hc. unfold store_transform.
  rewrite (column_carries present) by done. simpl.
  eexists. split_and!; [done | |].
  - apply same_records_assign. apply length_groupby_transform.
  - by apply carries_assign_keep.
Qed.

Lemma length_diff (xs : list cell) : length (diff xs) = length xs.
Proof. unfold diff. rewrite length_zip_with. simpl. lia. Qed.

Lemma create_economic_features_rows (df : list Row) :
  (∀ c, c ∈ indicator_cols → c ∈ present) →
  carries present df →
  ∃ out, create_economic_features df = Ok out
         ∧ same_records df out ∧ carries present out.
Proof.
  intros Hsub Hc. unfold create_economic_features.
  pose proof (same_records_sort store_date df) as Hl0.
  apply (carries_sort _ store_date) in Hc.
  destruct (store_transform_rows "temperature" "temperature_deviation"
              deviation_from_mean (sort_values store_date df))
    as (df1 & -> & Hl1 & Hc1); try done.
  { apply Hsub. unfold indicator_cols. set_solver. }
  { intros xs. unfold deviation_from_mean. by rewrite length_map. }
  destruct (store_transform_rows "fuel_price" "fuel_price_change" diff df1)
    as (df2 & Hdf2 & Hl2 & Hc2); try done.
  { apply Hsub. unfold indicator_cols. set_solver. }
  { apply length_diff. }
  destruct (store_transform_rows "cpi" "cpi_change" diff df2)
    as (df3 & Hdf3 & Hl3 & Hc3); try done.
  { apply Hsub. unfold indicator_cols. set_solver. }
  { apply length_diff. }
  destruct (store_transform_rows "unemployment" "unemployment_change" diff df3)
    as (df4 & Hdf4 & Hl4 & Hc4); try done.
  { apply Hsub. unfold indicator_cols. set_solver. }
  { apply length_diff. }
  exists df4. split_and!; [| |done].
  - simpl. rewrite Hdf2. simpl. rewrite Hdf3. simpl. by rewrite Hdf4.
  - repeat (eapply same_records_trans; [eassumption|]). apply same_records_refl.
Qed.

End pipeline_rows.

Lemma carries_fillna0 (present : list string) (c : string) (df : list Row) :
  carries present df → carries present (map (fillna0 c) df).
Proof.
  intros Hc. unfold carries in *.
  change (Forall (λ r, (∀ c, c ∈ present → is_Some (cols r !! c))
                       ∧ cols r !! "store_type" = None
                       ∧ cols r !! "size" = None) (fillna0 c <$> df)).
  apply Forall_fmap. eapply Forall_impl; [exact Hc|].
  intros r (Hp & Ht & Hs). unfold compose, fillna0.
  destruct (cols r !! c) as [[| [| |] | | |]|] eqn:Hlk; try done.
  simpl. split_and!.
  - intros c' Hc'. apply lookup_insert_is_Some'. right. by apply Hp.
  - rewrite lookup_insert_ne; [done|]. intros ->. congruence.
  - rewrite lookup_insert_ne; [done|]. intros ->. congruence.
Qed.

Lemma base_fillna0 (c : string) (r : Row) : base (fillna0 c r) = base r.
Proof.
  unfold fillna0. by destruct (cols r !! c) as [[| [| |] | | |]|].
Qed.

Lemma fillna_loop_rows (present cs : list string) (df : list Row) :
  carries present df →
  let out := foldl (λ df col, if has_column col df then map (fillna0 col) df else df)
                   df cs in
  same_records df out ∧ carries present out.
Proof.
  revert df. induction cs as [|c cs IH]; intros df Hc; simpl.
  - split; [apply same_records_refl | done].
  - destruct (has_column c df).
    + destruct (IH (map (fillna0 c) df)) as [Hs Hc'];
        [by apply carries_fillna0|].
      split; [|done]. eapply same_records_trans; [|exact Hs].
      apply same_records_map, base_fillna0.
    + by apply IH.
Qed.

Lemma create_markdown_features_rows (present : list string) (df : list Row) :
  (∀ c, c ∈ indicator_cols → c ∈ present) →
  carries present df →
  ∃ out, create_markdown_features df = Ok out
         ∧ same_records df out ∧ carries present out.
Proof.
  intros Hsub Hc. unfold create_markdown_features.
  destruct (fillna_loop_rows present markdown_cols df Hc) as [Hs0 Hc0].
  set (df0 := foldl _ df markdown_cols) in *.
  assert (Hmd : ∀ c, c ∈ markdown_cols → c ∈ present).
  { intros c Hin. apply Hsub. unfold markdown_cols, indicator_cols in *.
    repeat (apply elem_of_cons in Hin as [->|Hin];
            [repeat ((by left) || right)|]).
    by apply elem_of_nil in Hin. }
  rewrite (select_carries present) by done. simpl.
  set (df1 := assign "total_markdown" _ df0).
  assert (Hs1 : same_records df0 df1)
    by (apply same_records_assign; by rewrite !length_map).
  assert (Hc1 : carries ("total_markdown" :: present) df1)
    by (by apply carries_assign).
  rewrite (column_carries ("total_markdown" :: present)) by (done || left).
  simpl.
  set (df2 := assign "has_markdown" _ df1).
  assert (Hs2 : same_records df1 df2)
    by (apply same_records_assign; by rewrite !length_map).
  assert (Hc2 : carries present df2).
  { apply carries_assign_keep; [done|done|].
    apply (carries_weaken ("total_markdown" :: present)); [by right | done]. }
  rewrite (select_carries present) by done. simpl.
  eexists. split_and!; [done | |].
  - eapply same_records_trans; [exact Hs0|].
    eapply same_records_trans; [exact Hs1|].
    eapply same_records_trans; [exact Hs2|].
    apply same_records_assign. by rewrite !length_map.
  - by apply carries_assign_keep.
Qed.

(** *** The join with the stores *)

Lemma merge_row_store (l : Row) (s : gmap string cell) :
  cols l !! "store_type" = None → cols l !! "size" = None →
  let r := merge_row "_x" "_y" Store.columns l s in
  is_Some (cols r !! "store_type") ∧ is_Some (cols r !! "size").
Proof.
  intros Ht Hs. unfold merge_row, Store.columns, overlaps. cbn [foldr cols].
  rewrite Hs, Ht. simpl. split.
  - rewrite lookup_insert_eq. by eexists.
  - rewrite lookup_insert_ne by done. rewrite lookup_insert_eq. by eexists.
Qed.

Lemma with_store_assign (c : string) (vals : list cell) (df : list Row) :
  with_store df → with_store (assign c vals df).
Proof.
  intros Hw. apply Forall_assign. intros v r Hr.
  unfold with_store in Hw. rewrite Forall_forall in Hw.
  destruct (Hw r Hr) as [Ht Hs]. simpl.
  split; apply lookup_insert_is_Some'; by right.
Qed.

Lemma with_store_column (c : string) (df : list Row) :
  with_store df → c = "store_type" ∨ c = "size" →
  has_column c df = true.
Proof.
  intros Hw Hc. unfold has_column. apply forallb_forall. intros r Hr.
  apply bool_decide_eq_true. unfold with_store in Hw. rewrite Forall_forall in Hw.
  apply list_elem_of_In in Hr. destruct (Hw r Hr), Hc; by subst.
Qed.

Lemma column_with_store (c : string) (df : list Row) :
  with_store df → c = "store_type" ∨ c = "size" →
  column c df = Ok (map (λ r, default VNaN (cols r !! c)) df).
Proof. intros Hw Hc. unfold column. by rewrite with_store_column. Qed.

Lemma create_store_features_rows (sqrt : Qc → Qc) (present : list string)
    (df : list Row) (stores_df : list Store.t) :
  NoDup (Store.store_id <$> stores_df) →
  carries present df →
  ∃ out, create_store_features sqrt df stores_df = Ok out ∧ same_records df out.
Proof.
  intros Hnd Hc. unfold create_store_features.
  set (on := λ (l : Row) (s : Store.t), bool_decide (store_id l = Store.store_id s)).
  assert (Huniq : ∀ l, (length (List.filter (on l) stores_df) ≤ 1)%nat).
  { intros l. apply (filter_unique_key Store.store_id (store_id l)); [done|].
    intros m Hm. unfold on in Hm. by apply bool_decide_eq_true in Hm. }
  pose proof (same_records_merge_left on Store.series Store.columns "_x" "_y"
                df stores_df Huniq) as Hs0.
  assert (Hw0 : with_store
                  (merge_left on Store.series Store.columns "_x" "_y" df stores_df)).
  { apply Forall_merge_left. intros l s Hl.
    unfold carries in Hc. rewrite Forall_forall in Hc.
    destruct (Hc l Hl) as (_ & Ht & Hsz). by apply merge_row_store. }
  set (df0 := merge_left on Store.series Store.columns "_x" "_y" df stores_df) in *.
  rewrite (column_with_store "store_type" df0) by (done || by left). simpl.
  set (df1 := assign "store_type_a" _ df0).
  assert (Hs1 : same_records df0 df1)
    by (apply same_records_assign; by rewrite !length_map).
  assert (Hw1 : with_store df1) by (by apply with_store_assign).
  rewrite (column_with_store "store_type" df1) by (done || by left). simpl.
  set (df2 := assign "store_type_b" _ df1).
  assert (Hs2 : same_records df1 df2)
    by (apply same_records_assign; by rewrite !length_map).
  assert (Hw2 : with_store df2) by (by apply with_store_assign).
  rewrite (column_with_store "store_type" df2) by (done || by left). simpl.
  set (df3 := assign "store_type_c" _ df2).
  assert (Hs3 : same_records df2 df3)
    by (apply same_records_assign; by rewrite !length_map).
  assert (Hw3 : with_store df3) by (by apply with_store_assign).
  rewrite (column_with_store "size" df3) by (done || by right). simpl.
  set (df4 := assign "size_normalized" _ df3).
  assert (Hs4 : same_records df3 df4)
    by (apply same_records_assign; by rewrite !length_map).
  assert (Hw4 : with_store df4) by (by apply with_store_assign).
  unfold select. rewrite List_filter_none.
  2:{ intros c Hin. rewrite with_store_column; [done|done|].
      apply elem_of_cons in Hin as [->|Hin]; [by left|].
      apply elem_of_cons in Hin as [->|Hin]; [by right|].
      by apply elem_of_nil in Hin. }
  simpl. eexists. split; [done|].
  repeat (eapply same_records_trans; [eassumption|]).
  by apply same_records_map.
Qed.

Lemma record_rename_date (df : list Row) :
  Feature.record <$> map rename_date df = base <$> df.
Proof.
  change (Feature.record <$> (rename_date <$> df) = base <$> df).
  by rewrite <-list_fmap_compose.
Qed.

(** C4: when the indicators have one row per (store_id, date) and the
    stores one row per store_id, [engineer_features] raises nothing and
    returns exactly the sales records it was given, each once and with
    its derived columns: no row is filtered out and none is duplicated,
    whatever indicator or store rows are missing.  In particular the
    output has len(sales) rows. *)
Theorem engineer_features_row_count (sqrt : Qc → Qc) (sales_df : list Sales.t)
    (features_df : list Indicator.t) (stores_df : list Store.t) :
  NoDup ((λ f, (Indicator.store_id f, Indicator.date f)) <$> features_df) →
  NoDup (Store.store_id <$> stores_df) →
  ∃ out, engineer_features sqrt sales_df features_df stores_df = Ok out
         ∧ length out = length sales_df
         ∧ Feature.record <$> out ≡ₚ Sales.record <$> sales_df.
Proof.
  intros Hfeat Hstores. unfold engineer_features.
  set (on := λ (l : Row) (f : Indicator.t),
               bool_decide (store_id l = Indicator.store_id f)
               && bool_decide (date l = Indicator.date f)).
  assert (Huniq : ∀ l, (length (List.filter (on l) features_df) ≤ 1)%nat).
  { intros l.
    apply (filter_unique_key (λ f, (Indicator.store_id f, Indicator.date f))
             (store_id l, date l)); [done|].
    intros m Hm. unfold on in Hm. apply andb_true_iff in Hm as [H1 H2].
    apply bool_decide_eq_true in H1, H2. congruence. }
  set (raw := map Sales.row sales_df).
  pose proof (same_records_merge_left on Indicator.series Indicator.columns
                "" "_feat" raw features_df Huniq) as Hs0.
  assert (Hc0 : carries indicator_cols
                  (merge_left on Indicator.series Indicator.columns "" "_feat"
                     raw features_df)).
  { apply Forall_merge_left. intros l s Hl.
    change (l ∈ Sales.row <$> sales_df) in Hl.
    apply list_elem_of_fmap in Hl as (sale & -> & _). apply merge_row_sales. }
  set (df0 := merge_left on Indicator.series Indicator.columns "" "_feat"
                raw features_df) in *.
  set (df1 := if has_column "is_holiday_feat" df0
              then map (drop_col "is_holiday_feat") df0 else df0).
  assert (H1 : same_records df0 df1 ∧ carries indicator_cols df1).
  { unfold df1. destruct (has_column "is_holiday_feat" df0).
    - split; [by apply same_records_map|].
      apply carries_drop; [|done]. unfold indicator_cols. intros Hin.
      repeat (apply elem_of_cons in Hin as [Hin|Hin]; [discriminate Hin|]).
      by apply elem_of_nil in Hin.
    - split; [apply same_records_refl | done]. }
  destruct H1 as [Hs1 Hc1].
  destruct (create_temporal_features_rows indicator_cols df1) as [Hs2 Hc2].
  set (df2 := create_temporal_features df1) in *.
  destruct (create_lag_features_rows indicator_cols df2 [1; 2; 4; 8; 52])
    as [Hs3 Hc3].
  set (df3 := create_lag_features df2 [1; 2; 4; 8; 52]) in *.
  destruct (create_rolling_features_rows sqrt indicator_cols df3 [4; 13; 52])
    as (df4 & -> & Hs4 & Hc4).
  { repeat constructor; lia. }
  simpl.
  destruct (create_economic_features_rows indicator_cols df4)
    as (df5 & -> & Hs5 & Hc5); [done | auto |].
  simpl.
  destruct (create_markdown_features_rows indicator_cols df5)
    as (df6 & -> & Hs6 & Hc6); [done | done |].
  simpl.
  destruct (create_store_features_rows sqrt indicator_cols df6 stores_df)
    as (df7 & -> & Hs7); [done | done |].
  simpl. eexists. split; [done|].
  assert (Hall : same_records raw df7).
  { repeat (eapply same_records_trans; [eassumption|]). apply same_records_refl. }
  assert (Hrec : Feature.record <$> map rename_date df7 ≡ₚ Sales.record <$> sales_df).
  { rewrite record_rename_date. unfold same_records in Hall. rewrite Hall.
    unfold raw. change (base <$> (Sales.row <$> sales_df) ≡ₚ Sales.record <$> sales_df).
    by rewrite <-list_fmap_compose. }
  split; [|done].
  apply Permutation_length in Hrec.
  rewrite !length_fmap, ?length_map in Hrec. by rewrite ?length_map.
Qed.

Lemma engineer_features_row_count_witness :
  ∃ out, engineer_features (λ q, q) sample.sales sample.indicators sample.stores
         = Ok out
         ∧ length out = length sample.sales
         ∧ Feature.record <$> out ≡ₚ Sales.record <$> sample.sales.
Proof.
  apply (engineer_features_row_count (λ q, q) sample.sales sample.indicators
           sample.stores);
    apply (bool_decide_unpack _); vm_compute; exact I.
Defined.

(** ** models/generate_forecasts.py: the forecast dates *)

Lemma index_found (x : Z) (l : list Z) : x ∈ l → ∃ i, index x l = Ok i.
Proof.
  induction l as [|y l IH]; intros Hin; [by apply elem_of_nil in Hin|].
  simpl. destruct (decide (y = x)); [by eexists|].
  apply elem_of_cons in Hin as [?|Hin]; [congruence|].
  destruct (IH Hin) as [i ->]. by eexists.
Qed.

Lemma for_each_ok {A B} (f : A → result B) (P : A → B → Prop) (l : list A) :
  (∀ a, a ∈ l → ∃ b, f a = Ok b ∧ P a b) →
  ∃ bs, generate_forecasts.for_each f l = Ok bs ∧ Forall2 P l bs.
Proof.
  induction l as [|a l IH]; intros Hf; simpl.
  - exists []. split; [done | constructor].
  - destruct (Hf a) as (b & -> & Hb); [left|].
    destruct IH as (bs & -> & Hbs); [intros a' Ha'; apply Hf; by right|].
    exists (b :: bs). split; [done | by constructor].
Qed.

Lemma forecast_ok (model : Booster) (feature_cols : list string)
    (future_dates : list Z) (row : Feature.t) (d : Z) :
  d ∈ future_dates →
  ∃ f, generate_forecasts.forecast model feature_cols future_dates row d = Ok f
       ∧ forecast_key f = (Feature.store_id row, Feature.dept_id row, d).
Proof.
  intros Hd. unfold generate_forecasts.forecast.
  destruct (index_found d future_dates Hd) as [i ->]. simpl. by eexists.
Qed.

Lemma Forall2_fmap_eq {A B C} (g : B → C) (h : A → C) (l : list A) (bs : list B) :
  Forall2 (λ a b, g b = h a) l bs → g <$> bs = h <$> l.
Proof.
  induction 1 as [|a b l bs Hab _ IH]; [done|].
  rewrite !fmap_cons. by f_equal.
Qed.

Lemma length_bind_fmap {A B C} (h : A → B → C) (l : list A) (ds : list B) :
  length (l ≫= (λ a, h a <$> ds)) = (length l * length ds)%nat.
Proof.
  induction l as [|a l IH]; [done|].
  rewrite bind_cons, length_app, IH, length_fmap. simpl. lia.
Qed.

Lemma seqZ_nonempty (m n : Z) : 1 ≤ n → seqZ m n ≠ [].
Proof.
  intros Hn Hnil. apply (f_equal length) in Hnil.
  rewrite length_seqZ in Hnil. simpl in Hnil. lia.
Qed.

(** With unbounded dates, a run over a non-empty table and at least one
    week ends with one forecast per input row and date of the grid. *)
Lemma generate_predictions_run (model : Booster)
    (features_df : list Feature.t) (forecast_weeks : Z) :
  features_df ≠ [] → 1 ≤ forecast_weeks →
  ∃ (last_date : Z) (out : list Forecast.t),
    Feature.max_date features_df = Some last_date
    ∧ generate_forecasts.generate_predictions model features_df forecast_weeks
      = Ok out
    ∧ forecast_key <$> out
      = features_df ≫= (λ row,
          (λ d, (Feature.store_id row, Feature.dept_id row, d))
          <$> date_grid last_date forecast_weeks)
    ∧ length out = (length features_df * Z.to_nat forecast_weeks)%nat.
Proof.
  intros Hne Hw.
  destruct (Feature.max_date features_df) as [last|] eqn:Hmax;
    [|by destruct features_df].
  unfold generate_forecasts.generate_predictions. rewrite Hmax.
  set (feature_cols := generate_forecasts.get_feature_columns model).
  pose proof (seqZ_nonempty 1 forecast_weeks Hw) as Hseq.
  destruct (map _ (seqZ 1 forecast_weeks)) as [|d0 ds] eqn:Hmap.
  { apply (f_equal length) in Hmap. rewrite length_map in Hmap.
    destruct (seqZ 1 forecast_weeks); done. }
  clear Hmap d0 ds.
  cbn [mbind result_bind].
  set (future_dates := map (datetime.add_weeks last) (seqZ 1 forecast_weeks)).
  assert (Hgrid : future_dates = date_grid last forecast_weeks) by done.
  destruct (for_each_ok
              (λ row, generate_forecasts.for_each
                        (generate_forecasts.forecast model feature_cols
                           future_dates row) future_dates)
              (λ row fs, forecast_key <$> fs
                         = (λ d, (Feature.store_id row, Feature.dept_id row, d))
                           <$> future_dates)
              features_df) as (per_row & Hper & Hall).
  { intros row _.
    destruct (for_each_ok
                (generate_forecasts.forecast model feature_cols future_dates row)
                (λ d f, forecast_key f
                        = (Feature.store_id row, Feature.dept_id row, d))
                future_dates) as (fs & Hfs & Hkeys).
    { intros d Hd. by apply forecast_ok. }
    exists fs. split; [done|]. by apply Forall2_fmap_eq. }
  rewrite Hper. cbn [mbind result_bind].
  assert (Hkeys : forecast_key <$> concat per_row
                  = features_df ≫= (λ row,
                      (λ d, (Feature.store_id row, Feature.dept_id row, d))
                      <$> future_dates)).
  { clear Hper Hne Hmax. induction Hall as [|row fs rows fss Hrow _ IH]; [done|].
    rewrite bind_cons. simpl. by rewrite fmap_app, Hrow, IH. }
  assert (Hlen : length (concat per_row)
                 = (length features_df * Z.to_nat forecast_weeks)%nat).
  { apply (f_equal length) in Hkeys. rewrite length_fmap in Hkeys.
    rewrite Hkeys, length_bind_fmap. f_equal.
    unfold future_dates. by rewrite length_map, length_seqZ. }
  exists last, (concat per_row). split; [done|]. split.
  - destruct (concat per_row) as [|f fs] eqn:Hcat; [|done].
    simpl in Hlen. destruct features_df; [done|]. simpl in Hlen. lia.
  - by rewrite <-Hgrid.
Qed.

(** C10 (amended): for a non-empty input and a horizon of at least one
    week, the forecast dates of a run that returns come from the single
    global maximum of feature_date: every input row, whatever its own
    date, receives the same dates, global max + 7·w days for w =
    1..horizon_weeks, in that order, and the output has len(input) ·
    horizon_weeks rows.  The run returns whenever horizon_weeks weeks fit
    a pandas timedelta and the global maximum and the last forecast date
    are pandas timestamps. *)
Theorem generate_predictions_global_grid (model : Booster)
    (features_df : list Feature.t) (forecast_weeks : Z) :
  features_df ≠ [] → 1 ≤ forecast_weeks →
  ∃ last_date : Z,
    Feature.max_date features_df = Some last_date
    ∧ (forecast_weeks ≤ pd.Timedelta_max_weeks →
       pd.Timestamp_min ≤ last_date →
       last_date + 7 * forecast_weeks ≤ pd.Timestamp_max →
       ∃ out, generate_forecasts.generate_predictions model features_df
                forecast_weeks = Ok out)
    ∧ ∀ out : list Forecast.t,
        generate_forecasts.generate_predictions model features_df forecast_weeks
        = Ok out →
        forecast_key <$> out
        = features_df ≫= (λ row,
            (λ d, (Feature.store_id row, Feature.dept_id row, d))
            <$> date_grid last_date forecast_weeks)
        ∧ length out = (length features_df * Z.to_nat forecast_weeks)%nat.
Proof.
  intros Hne Hw.
  destruct (generate_predictions_run model features_df forecast_weeks Hne Hw)
    as (last & out0 & Hmax & Hrun & Hkeys & Hlen).
  exists last. split; [done|]. split; [by exists out0|].
  intros out Hout. rewrite Hrun in Hout. by injection Hout as <-.
Qed.

Lemma generate_predictions_global_grid_witness :
  ∃ last_date : Z,
    Feature.max_date sample.latest = Some last_date
    ∧ (8 ≤ pd.Timedelta_max_weeks →
       pd.Timestamp_min ≤ last_date →
       last_date + 7 * 8 ≤ pd.Timestamp_max →
       ∃ out, generate_forecasts.generate_predictions sample.booster sample.latest 8
              = Ok out)
    ∧ ∀ out : list Forecast.t,
        generate_forecasts.generate_predictions sample.booster sample.latest 8
        = Ok out →
        forecast_key <$> out
        = sample.latest ≫= (λ row,
            (λ d, (Feature.store_id row, Feature.dept_id row, d))
            <$> date_grid last_date 8)
        ∧ length out = (length sample.latest * Z.to_nat 8)%nat.
Proof.
  apply (generate_predictions_global_grid sample.booster sample.latest 8);
    [discriminate | lia].
Defined.

(** C10 (as stated) fails for a horizon of zero weeks: the list of dates
    is empty, and instead of an empty forecast table the call ends in
    the IndexError of its first log line. *)
Lemma generate_predictions_zero_horizon :
  sample.latest ≠ []
  ∧ generate_forecasts.generate_predictions sample.booster sample.latest 0
    = Raise IndexError.
Proof. split; [discriminate | reflexivity]. Qed.

(** The second series of the sample ends a week before the first, and is
    still forecast for the dates after the later of the two. *)
Example generate_predictions_late_series :
  (λ o, match o with
        | Ok out => Forecast.forecast_date <$> drop 8 out
        | Raise _ => []
        end)
    (generate_forecasts.generate_predictions sample.booster sample.latest 8)
  = (λ w, datetime._ymd2ord 2012 10 26 + 7 * w) <$> seqZ 1 8.
Proof. vm_compute. reflexivity. Qed.

(** ** models/generate_forecasts.py: the feature vector *)

Lemma item_map_pair (g : string → cell) (l : list string) (c : string) :
  item c (map (λ c, (c, g c)) l) = if decide (c ∈ l) then Some (g c) else None.
Proof.
  induction l as [|c' l IH].
  - destruct (decide (c ∈ [])) as [Hin|_]; [by apply elem_of_nil in Hin | done].
  - cbn [map item]. destruct (decide (c' = c)) as [->|Hne].
    + destruct (decide (c ∈ c :: l)) as [_|Hnin]; [done|].
      exfalso. apply Hnin. left.
    + rewrite IH. destruct (decide (c ∈ l)) as [Hin|Hnin].
      * destruct (decide (c ∈ c' :: l)) as [_|Hnin]; [done|].
        exfalso. apply Hnin. by right.
      * destruct (decide (c ∈ c' :: l)) as [Hin|_]; [|done].
        apply elem_of_cons in Hin as [?|?]; congruence.
Qed.

Lemma item_app (c : string) (X Y : list (string * cell)) :
  item c (X ++ Y) = match item c X with Some v => Some v | None => item c Y end.
Proof.
  induction X as [|[c' v] X IH]; simpl; [done|].
  by destruct (decide (c' = c)).
Qed.

Lemma foldl_append {A B} (h : A → B) (X : list B) (l : list A) :
  foldl (λ X a, X ++ [h a]) X l = X ++ map h l.
Proof.
  revert X. induction l as [|a l IH]; intros X; simpl.
  - by rewrite app_nil_r.
  - by rewrite IH, <-(assoc_L (++)).
Qed.

(** Every column the model expects holds the value of the updated row,
    or 0 when the row has no such column. *)
Lemma feature_vector_item (feature_cols : list string) (row : Feature.t)
    (d : Z) (c : string) :
  c ∈ feature_cols →
  item c (generate_forecasts.feature_vector feature_cols row d)
  = Some (default (VInt 0)
            (generate_forecasts.feature_row feature_cols row d !! c)).
Proof.
  intros Hin. unfold generate_forecasts.feature_vector.
  set (fr := generate_forecasts.feature_row feature_cols row d).
  rewrite (item_map_pair (λ c, default VNaN (item c _))).
  rewrite decide_True by done. f_equal.
  rewrite (foldl_append (λ col, (col, VInt 0))), item_app.
  rewrite (item_map_pair (λ c, default VNaN (fr !! c))).
  rewrite (item_map_pair (λ _, VInt 0)).
  destruct (fr !! c) as [v|] eqn:Hfr.
  - rewrite decide_True; [done|].
    apply list_elem_of_In, filter_In. split; [by apply list_elem_of_In|].
    apply bool_decide_eq_true. by rewrite Hfr.
  - rewrite decide_False.
    2:{ intros H. apply list_elem_of_In, filter_In in H as [_ H].
        apply bool_decide_eq_true in H. rewrite Hfr in H. by destruct H. }
    rewrite decide_True; [done|].
    apply list_elem_of_In, filter_In. split; [by apply list_elem_of_In|].
    apply negb_true_iff, bool_decide_eq_false. rewrite Hfr. by intros [? ?].
Qed.

Ltac not_calendar H :=
  let Heq := fresh in
  intros Heq; apply H; rewrite <-Heq; unfold calendar_labels;
  repeat ((by left) || right).

(** The time-feature update leaves every other column of the base row
    as it was. *)
Lemma feature_row_other (feature_cols : list string) (row : Feature.t)
    (d : Z) (c : string) :
  c ∉ calendar_labels →
  generate_forecasts.feature_row feature_cols row d !! c = Feature.series row !! c.
Proof.
  intros Hc. unfold generate_forecasts.feature_row.
  repeat case_bool_decide;
    repeat (rewrite lookup_insert_ne by not_calendar Hc); done.
Qed.

(** The columns the loop does not overwrite (lags, rolling statistics,
    economic, markdown and store features) reach the model with the
    value of the base row. *)
Lemma feature_vector_keeps (feature_cols : list string) (row : Feature.t)
    (d : Z) (c : string) (v : cell) :
  c ∈ feature_cols → c ∉ calendar_labels →
  Feature.series row !! c = Some v →
  item c (generate_forecasts.feature_vector feature_cols row d) = Some v.
Proof.
  intros Hin Hc Hv. rewrite feature_vector_item by done.
  by rewrite feature_row_other, Hv.
Qed.

(** Week of year, month and quarter are the ones
    [create_temporal_features] derives for the forecast date. *)
Lemma feature_vector_calendar (feature_cols : list string) (row : Feature.t)
    (d : Z) (c : string) :
  c ∈ feature_cols → c ∈ ["week_of_year"; "month"; "quarter"] →
  item c (generate_forecasts.feature_vector feature_cols row d)
  = temporal_feature c d.
Proof.
  intros Hin Hc. rewrite feature_vector_item by done.
  unfold generate_forecasts.feature_row.
  repeat (apply elem_of_cons in Hc as [->|Hc]);
    [| | |by apply elem_of_nil in Hc];
    repeat case_bool_decide;
    repeat (rewrite lookup_insert_ne by done);
    rewrite lookup_insert_eq; reflexivity.
Qed.

(** C5: the month-boundary flags of the forecast loop are not the ones
    [create_temporal_features] derives.  For the base row of store 1,
    department 1 and the forecast date 2012-11-02 the loop sets
    is_month_start to 1 (the day is at most 7) where the feature builder
    gives False (the day is not 1); for 2012-12-28 it sets is_month_end
    to 1 (the day is at least 24) where the builder gives False (the
    month ends on the 31st).  The regressor reads 1 and 0. *)
Theorem feature_vector_month_flags_diverge :
  let feature_cols := ["is_month_start"; "is_month_end"; "sales_lag_1"] in
  let row := Feature.mk 1 1 (datetime._ymd2ord 2012 10 26) (Zq 27390) false
               {[ "sales_lag_1" := VFloat (Fin (Zq 26000)) ]} in
  let d1 := datetime._ymd2ord 2012 11 2 in
  let d2 := datetime._ymd2ord 2012 12 28 in
  item "is_month_start" (generate_forecasts.feature_vector feature_cols row d1)
    = Some (VInt 1)
  ∧ temporal_feature "is_month_start" d1 = Some (VBool false)
  ∧ item "is_month_end" (generate_forecasts.feature_vector feature_cols row d2)
    = Some (VInt 1)
  ∧ temporal_feature "is_month_end" d2 = Some (VBool false)
  ∧ to_float (VInt 1) ≠ to_float (VBool false).
Proof.
  split_and!; try (vm_compute; reflexivity).
  vm_compute. intros H. discriminate H.
Qed.

(** ** models/generate_forecasts.py: writing the forecasts *)

(** C6 (amended): [write_forecasts] first deletes every row of the
    forecasts table and commits, then appends the new rows in a second
    transaction.  When all statements succeed the table ends up holding
    exactly the new rows, after having been committed empty in between;
    when the connection or the delete fails the prior rows are
    untouched; when the append fails after the delete was committed,
    the table is left empty. *)
Theorem write_forecasts_outcomes (old new : list Forecast.t)
    (metadata : list Metadata.t) (seen : list (list Forecast.t))
    (rest : list (option exn)) (e : exn) :
  let db outcomes := mkDatabase old metadata outcomes seen in
  generate_forecasts.write_forecasts new (db [])
    = (mkDatabase new metadata [] (seen ++ [[]] ++ [new]), Ok ())
  ∧ generate_forecasts.write_forecasts new (db (None :: None :: None :: rest))
    = (mkDatabase new metadata rest (seen ++ [[]] ++ [new]), Ok ())
  ∧ generate_forecasts.write_forecasts new (db (Some e :: rest))
    = (mkDatabase old metadata rest seen, Raise e)
  ∧ generate_forecasts.write_forecasts new (db (None :: Some e :: rest))
    = (mkDatabase old metadata rest seen, Raise e)
  ∧ generate_forecasts.write_forecasts new (db (None :: None :: Some e :: rest))
    = (mkDatabase [] metadata rest (seen ++ [[]]), Raise e).
Proof.
  intros db.
  unfold generate_forecasts.write_forecasts, db, mbind, prog_bind, connect, statement.
  split_and!; cbn; by rewrite <-?(assoc_L (++)).
Qed.

(** C6 (as stated) fails: with one prior forecast in the table and an
    append that fails, the write ends with the prior forecast deleted
    and the new one absent; and even a write that succeeds commits the
    empty table before the new rows. *)
Lemma write_forecasts_loses_prior_rows :
  let e := OperationalError "insert failed" in
  let db outcomes := mkDatabase [sample.forecast0] [] outcomes [] in
  let failed := generate_forecasts.write_forecasts [sample.forecast1]
                  (db [None; None; Some e]) in
  let done := generate_forecasts.write_forecasts [sample.forecast1] (db []) in
  failed.2 = Raise e
  ∧ forecasts failed.1 = []
  ∧ forecasts failed.1 ≠ [sample.forecast0]
  ∧ forecasts failed.1 ≠ [sample.forecast1]
  ∧ done.2 = Ok ()
  ∧ committed done.1 = [[]; [sample.forecast1]].
Proof.
  unfold generate_forecasts.write_forecasts, mbind, prog_bind, connect, statement.
  cbn. split_and!; done.
Qed.

(** ** models/trainer.py: the metadata write *)

Section train_facts.
Variable sqrt : Qc → Qc.
Variable params : list (string * string).
Variable lgb_train :
  list (list (string * cell)) → list Qc →
  option (list (list (string * cell)) * list Qc) → result Booster.
Variable mlflow : trainer.mlflow_call → result ().
Variable active_run_id : string.

(** When the database takes the record, a run whose training steps
    succeeded returns its metrics and leaves one more metadata row. *)
Lemma train_metadata_saved (train_df : list Feature.t)
    (val_df : option (list Feature.t)) (self0 : trainer.Forecaster)
    (db0 : Database) (m : Metrics) :
  (trainer.training_steps sqrt lgb_train mlflow train_df val_df self0).2 = Ok m →
  outcomes db0 = [] →
  let out := trainer.train sqrt params lgb_train mlflow active_run_id
               train_df val_df (trainer.mkState self0 db0) in
  out.2 = Ok m
  ∧ length (model_metadata (trainer.db out.1)) = S (length (model_metadata db0)).
Proof.
  intros Hsteps Hout out.
  remember (trainer.training_steps sqrt lgb_train mlflow train_df val_df self0)
    as ts eqn:Hts.
  unfold out, trainer.train, trainer.on_self, mbind, prog_bind.
  cbn [trainer.self trainer.db]. rewrite <-Hts.
  destruct ts as [self1 r1]. simpl in Hsteps. subst r1.
  unfold trainer._save_model_metadata, trainer.on_db, connect, statement, ret,
    mbind, prog_bind.
  destruct db0 as [fs md os seen]. simpl in Hout. subst os. cbn.
  split; [done|]. rewrite length_app. simpl. lia.
Qed.

(** C7 (amended): when the training steps of a run have succeeded and the
    metadata write then fails, [train] raises the error of the write
    instead of returning its metrics.  The forecaster object is left as
    the training steps made it, and no metadata row is written. *)
Theorem train_metadata_failure_propagates (train_df : list Feature.t)
    (val_df : option (list Feature.t)) (self0 : trainer.Forecaster)
    (db0 : Database) (m : Metrics) (e : exn) :
  (trainer.training_steps sqrt lgb_train mlflow train_df val_df self0).2 = Ok m →
  metadata_write_fails db0 e →
  let out := trainer.train sqrt params lgb_train mlflow active_run_id
               train_df val_df (trainer.mkState self0 db0) in
  out.2 = Raise e
  ∧ trainer.self out.1
    = (trainer.training_steps sqrt lgb_train mlflow train_df val_df self0).1
  ∧ model_metadata (trainer.db out.1) = model_metadata db0.
Proof.
  intros Hsteps Hfail out.
  remember (trainer.training_steps sqrt lgb_train mlflow train_df val_df self0)
    as ts eqn:Hts.
  unfold out, trainer.train, trainer.on_self, mbind, prog_bind.
  cbn [trainer.self trainer.db]. rewrite <-Hts.
  destruct ts as [self1 r1]. simpl in Hsteps. subst r1.
  unfold trainer._save_model_metadata, trainer.on_db, connect, statement, ret,
    mbind, prog_bind.
  unfold metadata_write_fails in Hfail.
  destruct db0 as [fs md os seen]. simpl in Hfail.
  destruct os as [|[e1|] [|[e2|] os]]; try done; subst; cbn; done.
Qed.

End train_facts.

Lemma train_metadata_failure_propagates_witness :
  let db0 := mkDatabase [] [] [None; Some (OperationalError "insert failed")] [] in
  let out := trainer.train (λ q, q) [] (λ _ _ _, Ok sample.fitted) (λ _, Ok ())
               "run-1" sample.history None
               (trainer.mkState sample.untrained db0) in
  out.2 = Raise (OperationalError "insert failed")
  ∧ trainer.self out.1
    = (trainer.training_steps (λ q, q) (λ _ _ _, Ok sample.fitted) (λ _, Ok ())
         sample.history None sample.untrained).1
  ∧ model_metadata (trainer.db out.1) = model_metadata db0.
Proof.
  eapply (train_metadata_failure_propagates (λ q, q) [] (λ _ _ _, Ok sample.fitted)
            (λ _, Ok ()) "run-1" sample.history None sample.untrained).
  - vm_compute. reflexivity.
  - reflexivity.
Defined.

(** C7 (as stated) fails: a run on twelve weeks of history whose training
    steps all succeed returns its metrics when the database accepts the
    record, and raises out of [train] without metrics when the insert of
    the record fails. *)
Lemma train_metadata_failure_raised :
  let run outcomes :=
    trainer.train (λ q, q) [] (λ _ _ _, Ok sample.fitted) (λ _, Ok ())
      "run-1" sample.history None
      (trainer.mkState sample.untrained (mkDatabase [] [] outcomes [])) in
  (∃ m, (run []).2 = Ok m)
  ∧ (run [None; Some (OperationalError "insert failed")]).2
    = Raise (OperationalError "insert failed").
Proof.
  split.
  - eexists. vm_compute. reflexivity.
  - vm_compute. reflexivity.
Qed.

(** The scenario of the specification, continued: the trailing mean over
    two rows of the sales 100, 200, 150 is 100, 150, 175. *)
Example rolling_scenario :
  (λ df, match df with
         | Ok df => (λ r, (λ q : Qc, this q) <$> (cols r !! "rolling_mean_2" ≫= finite))
                    <$> df
         | Raise _ => []
         end) (create_rolling_features (λ q, q) sample.three_weeks [2])
  = [Some (100 # 1)%Q; Some (150 # 1)%Q; Some (175 # 1)%Q].
Proof. vm_compute. reflexivity. Qed.

(** * Further properties of the code

    Properties of the modelled functions that the code itself shows,
    beside the statements of the specification. *)

(** ** models/metrics.py: the other metrics *)

Lemma Zq_0 : Zq 0 = 0%Qc.
Proof. apply Qc_is_canon. reflexivity. Qed.

Lemma Zq_1 : Zq 1 = 1%Qc.
Proof. apply Qc_is_canon. reflexivity. Qed.

Lemma Zq_of_nat_S (n : nat) : Zq (Z.of_nat (S n)) = (1 + Zq (Z.of_nat n))%Qc.
Proof.
  apply Qc_is_canon. unfold Zq, Qc_of_Z. simpl.
  rewrite Qred_correct. unfold Qeq. simpl. lia.
Qed.

Lemma Zq_of_nat_pos (n : nat) : (0 < n)%nat → (0 < Zq (Z.of_nat n))%Qc.
Proof. intros Hn. apply Zq_pos. lia. Qed.

Lemma weights_uniform (h : bool) (flags : list bool) :
  Forall (λ x, x = h) flags →
  metrics.weights flags = replicate (length flags) (if h then Zq 5 else Zq 1).
Proof.
  induction 1 as [|x flags -> _ IH]; [done|].
  unfold metrics.weights in *. simpl. by rewrite IH.
Qed.

Lemma np_sum_replicate (n : nat) (w : Qc) :
  np_sum (replicate n w) = (w * Zq (Z.of_nat n))%Qc.
Proof.
  induction n as [|n IH].
  - change (Z.of_nat 0) with 0. rewrite Zq_0. cbn. ring.
  - rewrite Zq_of_nat_S. cbn [replicate np_sum foldr]. fold (np_sum (replicate n w)).
    rewrite IH. ring.
Qed.

Lemma np_sum_scaled (w : Qc) (es : list Qc) :
  np_sum (zip_with Qcmult (replicate (length es) w) es) = (w * np_sum es)%Qc.
Proof.
  induction es as [|e es IH]; simpl.
  - ring.
  - rewrite IH. ring.
Qed.

Lemma calculate_mae_same_length (y_true y_pred : list Qc) :
  length y_true = length y_pred → y_true ≠ [] →
  trainer.calculate_mae y_true y_pred
  = Ok (Fin (np_sum (zip_with (λ a b, Qcabs (a - b)) y_true y_pred)
             / Zq (Z.of_nat (length y_true)))%Qc).
Proof.
  intros Hlen Hne. unfold trainer.calculate_mae, trainer.mean_error.
  rewrite decide_True by done. by destruct y_true.
Qed.

(** X1: when every entry carries the same holiday flag (all holiday
    weeks, or none) the weights cancel: on absolute errors that are whole
    numbers which binary64 sums without rounding, [calculate_wmae]
    returns exactly the mean absolute error of [calculate_mae]. *)
Theorem calculate_wmae_uniform_flags (y_true y_pred : list Qc)
    (is_holiday : list bool) (h : bool) :
  length y_true = length y_pred → length is_holiday = length y_true →
  y_true ≠ [] → Forall (λ x, x = h) is_holiday →
  exact_in_binary64 (zip_with (λ a b, Qcabs (a - b)) y_true y_pred) →
  metrics.calculate_wmae y_true y_pred is_holiday
  = trainer.calculate_mae y_true y_pred.
Proof.
  intros Hlen Hh Hne Hall _.
  rewrite calculate_wmae_same_length by lia.
  rewrite calculate_mae_same_length by done.
  rewrite (weights_uniform h) by done.
  set (w := if h then Zq 5 else Zq 1).
  set (es := zip_with (λ a b, Qcabs (a - b)) y_true y_pred).
  assert (Hes : length es = length is_holiday).
  { unfold es. rewrite length_zip_with. lia. }
  rewrite <-Hes, np_sum_scaled, np_sum_replicate.
  assert (Hw : w ≠ 0%Qc) by (unfold w; by destruct h).
  assert (Hn : Zq (Z.of_nat (length es)) ≠ 0%Qc).
  { assert (0 < Zq (Z.of_nat (length es)))%Qc as Hpos.
    { apply Zq_of_nat_pos. rewrite Hes, Hh. destruct y_true; [done | simpl; lia]. }
    intros H0. rewrite H0 in Hpos. by apply (irreflexivity Qclt 0%Qc). }
  rewrite np_divide_finite.
  2:{ intros H0. apply Qcmult_integral in H0 as [?|?]; done. }
  do 2 f_equal. rewrite Hes, Hh in *. field. done.
Qed.

Lemma np_broadcast_comm {A C} (f g : A → A → C) (xs ys : list A) :
  (∀ a b, f a b = g b a) → np_broadcast f xs ys = np_broadcast g ys xs.
Proof.
  intros Hfg. unfold np_broadcast.
  destruct (decide (length xs = length ys)) as [Hlen|Hlen].
  - rewrite decide_True by done. f_equal.
    revert ys Hlen. induction xs as [|x xs IH]; intros [|y ys] Hlen; simpl in *;
      try done. rewrite Hfg. f_equal. apply IH. lia.
  - rewrite decide_False by done.
    destruct xs as [|x [|x' xs]], ys as [|y [|y' ys]]; simpl in *; try done.
    + do 3 f_equal; [apply Hfg | apply Hfg |]. apply map_ext. intros; apply Hfg.
    + do 3 f_equal; [apply Hfg | apply Hfg |]. apply map_ext. intros; apply Hfg.
Qed.

Lemma calculate_wmae_swap (y_true y_pred : list Qc) (is_holiday : list bool) :
  metrics.calculate_wmae y_pred y_true is_holiday
  = metrics.calculate_wmae y_true y_pred is_holiday.
Proof.
  unfold metrics.calculate_wmae.
  rewrite (np_broadcast_comm (λ a b, Qcabs (a - b)) (λ a b, Qcabs (a - b)) y_pred y_true);
    [done|].
  intros a b. apply Qcabs_Qcminus.
Qed.

Lemma weighted_sum_lower (ws es : list Qc) (lo : Qc) :
  length ws = length es →
  Forall (λ w, 0 < w)%Qc ws → Forall (λ e, lo ≤ e)%Qc es →
  (lo * np_sum ws ≤ np_sum (zip_with Qcmult ws es))%Qc.
Proof.
  revert es. induction ws as [|w ws IH]; intros [|e es] Hlen Hw He; simpl in *;
    try lia.
  - replace (lo * 0)%Qc with 0%Qc by ring. apply Qcle_refl.
  - apply Forall_cons in Hw as [Hw0 Hw]. apply Forall_cons in He as [Hlo He].
    replace (lo * (w + np_sum ws))%Qc with (lo * w + lo * np_sum ws)%Qc by ring.
    apply Qcplus_le_compat; [|apply IH; (lia || done)].
    rewrite (Qcmult_comm w e). apply Qcmult_le_compat_r; [done|].
    by apply Qclt_le_weak.
Qed.

Lemma weighted_sum_upper (ws es : list Qc) (hi : Qc) :
  length ws = length es →
  Forall (λ w, 0 < w)%Qc ws → Forall (λ e, e ≤ hi)%Qc es →
  (np_sum (zip_with Qcmult ws es) ≤ hi * np_sum ws)%Qc.
Proof.
  revert es. induction ws as [|w ws IH]; intros [|e es] Hlen Hw He; simpl in *;
    try lia.
  - replace (hi * 0)%Qc with 0%Qc by ring. apply Qcle_refl.
  - apply Forall_cons in Hw as [Hw0 Hw]. apply Forall_cons in He as [Hhi He].
    replace (hi * (w + np_sum ws))%Qc with (hi * w + hi * np_sum ws)%Qc by ring.
    apply Qcplus_le_compat; [|apply IH; (lia || done)].
    rewrite (Qcmult_comm w e). apply Qcmult_le_compat_r; [done|].
    by apply Qclt_le_weak.
Qed.

Lemma weights_all_positive (is_holiday : list bool) :
  Forall (λ w, 0 < w)%Qc (metrics.weights is_holiday).
Proof.
  unfold metrics.weights. apply Forall_forall. intros w Hw.
  apply list_elem_of_In, in_map_iff in Hw as (h & <- & _).
  destruct h; apply Zq_pos; lia.
Qed.

Lemma abs_errors_nonneg (y_true y_pred : list Qc) :
  Forall (λ e, 0 ≤ e)%Qc (zip_with (λ a b, Qcabs (a - b)) y_true y_pred).
Proof.
  revert y_pred. induction y_true as [|a y_true IH]; intros [|b y_pred]; simpl;
    constructor; [apply Qcabs_nonneg | apply IH].
Qed.

Lemma Qcdiv_lower (s w lo : Qc) :
  (0 < w)%Qc → (lo * w ≤ s)%Qc → (lo ≤ s / w)%Qc.
Proof.
  intros Hw Hlo.
  assert (Hnz : w ≠ 0%Qc).
  { intros H0. rewrite H0 in Hw. by apply (irreflexivity Qclt 0%Qc). }
  assert (Hs : (s / w * w)%Qc = s) by (field; done).
  apply (Qcmult_lt_0_le_reg_r _ _ w Hw). by rewrite Hs.
Qed.

Lemma Qcdiv_upper (s w hi : Qc) :
  (0 < w)%Qc → (s ≤ hi * w)%Qc → (s / w ≤ hi)%Qc.
Proof.
  intros Hw Hhi.
  assert (Hnz : w ≠ 0%Qc).
  { intros H0. rewrite H0 in Hw. by apply (irreflexivity Qclt 0%Qc). }
  assert (Hs : (s / w * w)%Qc = s) by (field; done).
  apply (Qcmult_lt_0_le_reg_r _ _ w Hw). by rewrite Hs.
Qed.

(** X2: [calculate_wmae] does not tell the actual from the predicted
    values: swapping them changes neither the value nor the error of a
    call.  On non-empty inputs of equal length whose absolute errors are
    whole numbers which binary64 sums without rounding, the value is a
    weighted average: it lies between any whole lower and upper bound of
    the absolute errors, and is not negative. *)
Theorem calculate_wmae_symmetric (y_true y_pred : list Qc) (is_holiday : list bool) :
  metrics.calculate_wmae y_pred y_true is_holiday
  = metrics.calculate_wmae y_true y_pred is_holiday
  ∧ ∀ lo hi : Z,
      length y_true = length is_holiday → length y_pred = length is_holiday →
      is_holiday ≠ [] →
      exact_in_binary64 (zip_with (λ a b, Qcabs (a - b)) y_true y_pred) →
      Forall (λ e, Zq lo ≤ e ∧ e ≤ Zq hi)%Qc
        (zip_with (λ a b, Qcabs (a - b)) y_true y_pred) →
      ∃ q, metrics.calculate_wmae y_true y_pred is_holiday = Ok (Fin q)
           ∧ (0 ≤ q)%Qc ∧ (Zq lo ≤ q)%Qc ∧ (q ≤ Zq hi)%Qc.
Proof.
  split; [apply calculate_wmae_swap|].
  intros lo hi Ht Hp Hne _ Hall.
  pose proof (weights_positive is_holiday Hne) as Hpos.
  assert (Hnz : np_sum (metrics.weights is_holiday) ≠ 0%Qc).
  { intros H0. rewrite H0 in Hpos. by apply (irreflexivity Qclt 0%Qc). }
  set (es := zip_with (λ a b, Qcabs (a - b)) y_true y_pred) in *.
  assert (Hlen : length (metrics.weights is_holiday) = length es).
  { unfold metrics.weights, es. rewrite length_map, length_zip_with. lia. }
  assert (Hw : metrics.calculate_wmae y_true y_pred is_holiday
               = Ok (Fin (np_sum (zip_with Qcmult (metrics.weights is_holiday) es)
                          / np_sum (metrics.weights is_holiday))%Qc)).
  { rewrite calculate_wmae_same_length by done. by rewrite np_divide_finite. }
  eexists. split; [exact Hw|].
  split_and!.
  - apply Qcdiv_lower; [done|].
    apply weighted_sum_lower; [done | apply weights_all_positive |].
    apply abs_errors_nonneg.
  - apply Qcdiv_lower; [done|].
    apply weighted_sum_lower; [done | apply weights_all_positive |].
    eapply Forall_impl; [exact Hall|]. by intros e [? _].
  - apply Qcdiv_upper; [done|].
    apply weighted_sum_upper; [done | apply weights_all_positive |].
    eapply Forall_impl; [exact Hall|]. by intros e [_ ?].
Qed.







Section evaluate.
Variable sqrt : Qc → Qc.


End evaluate.

Lemma calculate_wmae_uniform_flags_witness :
  metrics.calculate_wmae [Zq 1000; Zq 2000] [Zq 1100; Zq 1700] [true; true]
  = trainer.calculate_mae [Zq 1000; Zq 2000] [Zq 1100; Zq 1700].
Proof.
  apply (calculate_wmae_uniform_flags _ _ _ true);
    [reflexivity | reflexivity | discriminate | repeat constructor |].
  exists [100; 300]. split_and!; [| repeat constructor; lia | reflexivity].
  cbn [zip_with fmap list_fmap].
  repeat (apply (f_equal2 cons); [apply Qc_is_canon; reflexivity|]). reflexivity.
Defined.

Lemma calculate_wmae_symmetric_witness :
  ∃ q, metrics.calculate_wmae [Zq 1000; Zq 2000] [Zq 1100; Zq 1700] [true; false]
       = Ok (Fin q)
       ∧ (0 ≤ q)%Qc ∧ (Zq 100 ≤ q)%Qc ∧ (q ≤ Zq 300)%Qc.
Proof.
  apply (proj2 (calculate_wmae_symmetric [Zq 1000; Zq 2000] [Zq 1100; Zq 1700]
                  [true; false]) 100 300);
    [reflexivity | reflexivity | discriminate | |].
  - exists [100; 300]. split_and!; [| repeat constructor; lia | reflexivity].
    cbn [zip_with fmap list_fmap].
    repeat (apply (f_equal2 cons); [apply Qc_is_canon; reflexivity|]). reflexivity.
  - repeat constructor; vm_compute; discriminate.
Defined.


(** ** Calendar arithmetic: year, month and day of an ordinal *)

Lemma is_leap_decomposed (a b c e : Z) :
  0 ≤ b ≤ 3 → 0 ≤ c ≤ 24 → 0 ≤ e ≤ 3 →
  datetime._is_leap (a * 400 + 1 + b * 100 + c * 4 + e)
  = (e =? 3) && (negb (c =? 24) || (b =? 3)).
Proof.
  intros Hb Hc He. unfold datetime._is_leap.
  set (y := a * 400 + 1 + b * 100 + c * 4 + e).
  assert (H4 : y mod 4 = (1 + e) mod 4).
  { unfold y. replace (a * 400 + 1 + b * 100 + c * 4 + e)
      with ((1 + e) + (a * 100 + b * 25 + c) * 4) by lia.
    apply Z_mod_plus_full. }
  assert (H100 : y mod 100 = (1 + c * 4 + e) mod 100).
  { unfold y. replace (a * 400 + 1 + b * 100 + c * 4 + e)
      with ((1 + c * 4 + e) + (a * 4 + b) * 100) by lia.
    apply Z_mod_plus_full. }
  assert (H400 : y mod 400 = (1 + b * 100 + c * 4 + e) mod 400).
  { unfold y. replace (a * 400 + 1 + b * 100 + c * 4 + e)
      with ((1 + b * 100 + c * 4 + e) + a * 400) by lia.
    apply Z_mod_plus_full. }
  rewrite H4, H100, H400. clearbody y.
  destruct (Z.eqb_spec e 3) as [->|He3].
  - replace ((1 + 3) mod 4) with 0 by done. simpl.
    destruct (Z.eqb_spec c 24) as [->|Hc24]; simpl.
    + replace ((1 + 24 * 4 + 3) mod 100) with 0 by done. simpl.
      destruct (Z.eqb_spec b 3) as [->|Hb3]; [done|].
      apply Z.eqb_neq. Z.div_mod_to_equations. lia.
    + replace (((1 + c * 4 + 3) mod 100 =? 0)) with false; [done|].
      symmetry. apply Z.eqb_neq. Z.div_mod_to_equations. lia.
  - replace ((1 + e) mod 4 =? 0) with false; [done|].
    symmetry. apply Z.eqb_neq. Z.div_mod_to_equations. lia.
Qed.

Lemma ord2ymd_spec (d : Z) :
  1 ≤ datetime.month d ≤ 12
  ∧ 1 ≤ datetime.day d ≤ datetime._days_in_month (datetime.year d) (datetime.month d)
  ∧ datetime._ymd2ord (datetime.year d) (datetime.month d) (datetime.day d) = d.
Proof.
  unfold datetime.year, datetime.month, datetime.day, datetime._ord2ymd,
    datetime._DI400Y, datetime._DI100Y, datetime._DI4Y.
  cbv zeta.
  set (N := d - 1).
  set (a := N / 146097). set (r1 := N mod 146097).
  set (b := r1 / 36524). set (r2 := r1 mod 36524).
  set (c := r2 / 1461). set (r3 := r2 mod 1461).
  set (e := r3 / 365). set (r4 := r3 mod 365).
  assert (N = 146097 * a + r1 ∧ 0 ≤ r1 < 146097) as [HN Hr1].
  { unfold a, r1. split; [apply Z.div_mod; lia | apply Z.mod_pos_bound; lia]. }
  assert (r1 = 36524 * b + r2 ∧ 0 ≤ r2 < 36524) as [Hr1e Hr2].
  { unfold b, r2. split; [apply Z.div_mod; lia | apply Z.mod_pos_bound; lia]. }
  assert (r2 = 1461 * c + r3 ∧ 0 ≤ r3 < 1461) as [Hr2e Hr3].
  { unfold c, r3. split; [apply Z.div_mod; lia | apply Z.mod_pos_bound; lia]. }
  assert (r3 = 365 * e + r4 ∧ 0 ≤ r4 < 365) as [Hr3e Hr4].
  { unfold e, r4. split; [apply Z.div_mod; lia | apply Z.mod_pos_bound; lia]. }
  clearbody a r1 b r2 c r3 e r4.
  assert (Hb : 0 ≤ b ≤ 4) by lia. assert (Hc : 0 ≤ c ≤ 24) by lia.
  assert (He : 0 ≤ e ≤ 4) by lia.
  destruct (Z.eqb_spec e 4) as [He4|He4]; simpl.
  { cbn [fst snd]. unfold datetime._days_in_month, datetime._ymd2ord,
      datetime._days_before_month, datetime._days_before_year. simpl.
    assert (Hl : datetime._is_leap (a * 400 + 1 + b * 100 + c * 4 + e - 1) = true).
    { replace (a * 400 + 1 + b * 100 + c * 4 + e - 1)
        with (a * 400 + 1 + b * 100 + c * 4 + 3) by lia.
      assert (b ≤ 3) by lia.
      rewrite is_leap_decomposed by lia. simpl.
      destruct (Z.eqb_spec c 24); [|done]. simpl. apply Z.eqb_eq. lia. }
    rewrite Hl. split_and!; try lia. Z.div_mod_to_equations. lia. }
  destruct (Z.eqb_spec b 4) as [Hb4|Hb4]; simpl.
  { cbn [fst snd]. unfold datetime._days_in_month, datetime._ymd2ord,
      datetime._days_before_month, datetime._days_before_year. simpl.
    assert (c = 0 ∧ e = 0 ∧ r4 = 0) as (-> & -> & ->) by lia.
    assert (Hl : datetime._is_leap (a * 400 + 1 + b * 100 + 0 * 4 + 0 - 1) = true).
    { replace (a * 400 + 1 + b * 100 + 0 * 4 + 0 - 1)
        with (a * 400 + 1 + 3 * 100 + 24 * 4 + 3) by lia.
      by rewrite is_leap_decomposed by lia. }
    rewrite Hl. split_and!; try lia. Z.div_mod_to_equations. lia. }
  pose proof (is_leap_decomposed a b c e ltac:(lia) ltac:(lia) ltac:(lia)) as Hleap.
  set (y := a * 400 + 1 + b * 100 + c * 4 + e) in *.
  set (leap := (e =? 3) && (negb (c =? 24) || (b =? 3))) in *.
  assert (Hdby : datetime._days_before_year y = N - r4).
  { unfold datetime._days_before_year, y. Z.div_mod_to_equations. lia. }
  assert (Hleap_r4 : leap = false → True) by done.
  rewrite Z.shiftr_div_pow2 by lia. change (2 ^ 5) with 32.
  set (mo := (r4 + 50) / 32).
  assert (Hmo : mo = 1 ∨ mo = 2 ∨ mo = 3 ∨ mo = 4 ∨ mo = 5 ∨ mo = 6 ∨ mo = 7
                ∨ mo = 8 ∨ mo = 9 ∨ mo = 10 ∨ mo = 11 ∨ mo = 12).
  { unfold mo. Z.div_mod_to_equations. lia. }
  assert (Hmor : 32 * mo ≤ r4 + 50 < 32 * mo + 32).
  { unfold mo. Z.div_mod_to_equations. lia. }
  clearbody mo.
  subst N.
  destruct Hmo as [->|[->|[->|[->|[->|[->|[->|[->|[->|[->|[->| ->]]]]]]]]]]];
    simpl;
    repeat match goal with
    | |- context [?x <? ?y] => destruct (Z.ltb_spec x y)
    end; cbn [fst snd];
    unfold datetime._days_in_month, datetime._ymd2ord, datetime._days_before_month;
    rewrite Hleap, Hdby; destruct leap; simpl in *; lia.
Qed.

Lemma ord2ymd_year (d : Z) :
  datetime._days_before_year (datetime.year d) < d
  ∧ d ≤ datetime._days_before_year (datetime.year d + 1).
Proof.
  unfold datetime.year, datetime._ord2ymd, datetime._days_before_year,
    datetime._DI400Y, datetime._DI100Y, datetime._DI4Y.
  cbv zeta.
  set (N := d - 1).
  set (a := N / 146097). set (r1 := N mod 146097).
  set (b := r1 / 36524). set (r2 := r1 mod 36524).
  set (c := r2 / 1461). set (r3 := r2 mod 1461).
  set (e := r3 / 365). set (r4 := r3 mod 365).
  assert (N = 146097 * a + r1 ∧ 0 ≤ r1 < 146097) as [HN Hr1].
  { unfold a, r1. split; [apply Z.div_mod; lia | apply Z.mod_pos_bound; lia]. }
  assert (r1 = 36524 * b + r2 ∧ 0 ≤ r2 < 36524) as [Hr1e Hr2].
  { unfold b, r2. split; [apply Z.div_mod; lia | apply Z.mod_pos_bound; lia]. }
  assert (r2 = 1461 * c + r3 ∧ 0 ≤ r3 < 1461) as [Hr2e Hr3].
  { unfold c, r3. split; [apply Z.div_mod; lia | apply Z.mod_pos_bound; lia]. }
  assert (r3 = 365 * e + r4 ∧ 0 ≤ r4 < 365) as [Hr3e Hr4].
  { unfold e, r4. split; [apply Z.div_mod; lia | apply Z.mod_pos_bound; lia]. }
  clearbody a r1 b r2 c r3 e r4. subst N.
  assert (0 ≤ b ≤ 4) by lia. assert (0 ≤ c ≤ 24) by lia. assert (0 ≤ e ≤ 4) by lia.
  destruct (Z.eqb_spec e 4) as [He|He]; simpl.
  - cbn [fst snd]. Z.div_mod_to_equations; lia.
  - destruct (Z.eqb_spec b 4) as [Hb|Hb]; simpl.
    + Z.div_mod_to_equations; lia.
    + destruct (r4 <? _); cbn [fst snd]; Z.div_mod_to_equations; lia.
Qed.

Lemma days_before_year_step (y : Z) :
  365 ≤ datetime._days_before_year (y + 1) - datetime._days_before_year y ≤ 366.
Proof. unfold datetime._days_before_year. Z.div_mod_to_equations. lia. Qed.

Lemma isoweek1monday_spec (y : Z) :
  datetime._days_before_year y - 2 ≤ datetime._isoweek1monday y
    ≤ datetime._days_before_year y + 4
  ∧ datetime._isoweek1monday y mod 7 = 1.
Proof.
  unfold datetime._isoweek1monday, datetime._ymd2ord, datetime._days_before_month.
  simpl. set (f := datetime._days_before_year y). clearbody f.
  cbv zeta.
  match goal with |- context [3 <? ?x] => destruct (Z.ltb_spec 3 x) end;
    Z.div_mod_to_equations; lia.
Qed.

Lemma isocalendar_week_range (d : Z) : 1 ≤ datetime.isocalendar_week d ≤ 53.
Proof.
  unfold datetime.isocalendar_week. cbv zeta.
  set (y := datetime.year d).
  pose proof (ord2ymd_year d) as [Hlo Hhi]. fold y in Hlo, Hhi.
  pose proof (isoweek1monday_spec y) as [Hw Hm].
  pose proof (isoweek1monday_spec (y - 1)) as [Hw0 Hm0].
  pose proof (isoweek1monday_spec (y + 1)) as [Hw1 Hm1].
  pose proof (days_before_year_step y) as Hs.
  pose proof (days_before_year_step (y - 1)) as Hs0.
  replace (y - 1 + 1) with y in Hs0 by lia.
  set (m := datetime._isoweek1monday y) in *.
  set (m0 := datetime._isoweek1monday (y - 1)) in *.
  set (m1 := datetime._isoweek1monday (y + 1)) in *.
  set (f := datetime._days_before_year y) in *.
  set (f0 := datetime._days_before_year (y - 1)) in *.
  set (f1 := datetime._days_before_year (y + 1)) in *.
  clearbody m m0 m1 f f0 f1.
  destruct (Z.ltb_spec ((d - m) / 7) 0).
  - Z.div_mod_to_equations. lia.
  - destruct (Z.leb_spec 52 ((d - m) / 7)); simpl.
    + destruct (Z.leb_spec m1 d); [lia|]. Z.div_mod_to_equations. lia.
    + Z.div_mod_to_equations. lia.
Qed.

(** ** data_pipeline/feature_engineering.py: the calendar columns *)

Lemma days_in_month_ge_28 (y m : Z) : 1 ≤ m ≤ 12 → 28 ≤ datetime._days_in_month y m ≤ 31.
Proof.
  intros Hm. unfold datetime._days_in_month.
  assert (m = 1 ∨ m = 2 ∨ m = 3 ∨ m = 4 ∨ m = 5 ∨ m = 6 ∨ m = 7 ∨ m = 8 ∨ m = 9
          ∨ m = 10 ∨ m = 11 ∨ m = 12) as Hc by lia.
  destruct Hc as [->|[->|[->|[->|[->|[->|[->|[->|[->|[->|[->| ->]]]]]]]]]]];
    simpl; try lia.
  destruct (datetime._is_leap y); simpl; lia.
Qed.

Lemma assign_map (c : string) (h : Row → cell) (df : list Row) :
  assign c (map h df) df = map (λ r, set_col c (h r) r) df.
Proof.
  unfold assign. induction df as [|r df IH]; [done|]. simpl. by rewrite IH.
Qed.

Lemma assign_map_map (c : string) (h : Row → cell) (g : Row → Row) (df : list Row) :
  assign c (map h (map g df)) (map g df) = map (λ r, set_col c (h (g r)) (g r)) df.
Proof. by rewrite assign_map, map_map. Qed.

Lemma create_temporal_features_map (df : list Row) :
  create_temporal_features df = map temporal_row df.
Proof.
  unfold create_temporal_features. cbv zeta.
  rewrite !assign_map, !map_map. done.
Qed.

(** X6: [create_temporal_features] keeps the rows in their order, their
    sales records and every other column, and writes on each row
    calendar values in range: week_of_year in 1..53, month in 1..12,
    quarter in 1..4 and the quarter of that month; no date is flagged
    both as month start and as month end. *)
Theorem create_temporal_features_ranges (df : list Row) :
  Forall2 (λ r r',
     base r' = base r
     ∧ (∀ c, c ∉ ["week_of_year"; "month"; "quarter"; "is_month_start"; "is_month_end"] →
             cols r' !! c = cols r !! c)
     ∧ ∃ (w m q : Z) (s e : bool),
         cols r' !! "week_of_year" = Some (VInt w)
         ∧ cols r' !! "month" = Some (VInt m)
         ∧ cols r' !! "quarter" = Some (VInt q)
         ∧ cols r' !! "is_month_start" = Some (VBool s)
         ∧ cols r' !! "is_month_end" = Some (VBool e)
         ∧ 1 ≤ w ≤ 53 ∧ 1 ≤ m ≤ 12 ∧ 1 ≤ q ≤ 4
         ∧ 3 * (q - 1) < m ≤ 3 * q
         ∧ (s && e = false))
    df (create_temporal_features df).
Proof.
  rewrite create_temporal_features_map.
  induction df as [|r df IH]; [constructor|]. cbn [map]. constructor; [|exact IH].
  clear IH. split; [done|]. split.
  { intros c Hc. unfold temporal_row. simpl.
    rewrite !lookup_insert_ne; [done|..]; intros <-; apply Hc;
      repeat ((by left) || right). }
  pose proof (ord2ymd_spec (date r)) as (Hm & Hd & _).
  pose proof (isocalendar_week_range (date r)) as Hw.
  pose proof (days_in_month_ge_28 (datetime.year (date r)) _ Hm) as Hdim.
  exists (dt.isocalendar_week (date r)), (dt.month (date r)), (dt.quarter (date r)),
    (dt.is_month_start (date r)), (dt.is_month_end (date r)).
  split_and!;
    try (unfold temporal_row; simpl;
         repeat (rewrite lookup_insert_ne by done); by rewrite lookup_insert_eq);
    try (unfold dt.quarter, dt.month, dt.isocalendar_week;
         Z.div_mod_to_equations; lia).
  unfold dt.is_month_start, dt.is_month_end.
  destruct (Z.eqb_spec (datetime.day (date r)) 1) as [H1|H1]; [|done].
  simpl. apply Z.eqb_neq. lia.
Qed.

(** X7: the month-boundary flags of the forecast loop cover those of
    [create_temporal_features]: whenever the feature builder flags the
    forecast date as month start (or month end), the regressor is fed 1
    under that name.  The two differ only where the loop flags more. *)
Theorem feature_vector_month_flags_cover (feature_cols : list string)
    (row : Feature.t) (d : Z) (c : string) :
  c ∈ ["is_month_start"; "is_month_end"] → c ∈ feature_cols →
  temporal_feature c d = Some (VBool true) →
  item c (generate_forecasts.feature_vector feature_cols row d) = Some (VInt 1).
Proof.
  intros Hc Hin Ht. rewrite feature_vector_item by done.
  pose proof (ord2ymd_spec d) as (Hm & Hd & _).
  pose proof (days_in_month_ge_28 (datetime.year d) _ Hm) as Hdim.
  unfold generate_forecasts.feature_row.
  repeat (apply elem_of_cons in Hc as [->|Hc]); [| |by apply elem_of_nil in Hc].
  - assert (Hs : dt.is_month_start d = true).
    { change (temporal_feature "is_month_start" d)
        with (Some (VBool (dt.is_month_start d))) in Ht. congruence. }
    rewrite lookup_insert_ne by done. rewrite lookup_insert_ne by done.
    rewrite lookup_insert_ne by done. rewrite lookup_insert_eq. simpl.
    unfold dt.is_month_start in Hs. apply Z.eqb_eq in Hs.
    unfold generate_forecasts.flag.
    destruct (Z.leb_spec (datetime.day d) 7); [done | lia].
  - assert (Hs : dt.is_month_end d = true).
    { change (temporal_feature "is_month_end" d)
        with (Some (VBool (dt.is_month_end d))) in Ht. congruence. }
    rewrite lookup_insert_ne by done. rewrite lookup_insert_ne by done.
    rewrite lookup_insert_eq. simpl.
    unfold dt.is_month_end in Hs. apply Z.eqb_eq in Hs.
    unfold generate_forecasts.flag.
    destruct (Z.leb_spec 24 (datetime.day d)); [done | lia].
Qed.

Lemma feature_vector_month_flags_cover_witness :
  item "is_month_end"
    (generate_forecasts.feature_vector ["is_month_end"; "sales_lag_1"]
       (sample.feature 1 1 2 150) (datetime._ymd2ord 2012 11 30))
  = Some (VInt 1).
Proof.
  apply (feature_vector_month_flags_cover ["is_month_end"; "sales_lag_1"]
           (sample.feature 1 1 2 150) (datetime._ymd2ord 2012 11 30) "is_month_end").
  - right; left.
  - left.
  - vm_compute. reflexivity.
Defined.

(** ** models/trainer.py: more on the temporal split *)

Lemma create_train_val_split_eq (df : list Feature.t) (val_weeks m : Z) :
  Feature.max_date df = Some m →
  ∃ s, trainer.create_train_val_split df val_weeks = Ok s
       ∧ trainer.train_df s
         = List.filter (λ r, Feature.feature_date r <? m - 7 * val_weeks)
             (sort_values (λ r, [Feature.feature_date r]) df)
       ∧ trainer.val_df s
         = List.filter (λ r, m - 7 * val_weeks <=? Feature.feature_date r)
             (sort_values (λ r, [Feature.feature_date r]) df).
Proof.
  intros Hm.
  set (sorted := sort_values (λ r, [Feature.feature_date r]) df).
  assert (Hp : sorted ≡ₚ df) by apply sort_values_perm.
  assert (Hms : Feature.max_date sorted = Some m) by (by rewrite (max_date_perm _ _ Hp)).
  eexists. split.
  { unfold trainer.create_train_val_split. fold sorted. rewrite Hms. simpl. reflexivity. }
  by simpl.
Qed.

Lemma sorted_by_date (df : list Feature.t) :
  StronglySorted (λ a b, Feature.feature_date a ≤ Feature.feature_date b)
    (sort_values (λ r, [Feature.feature_date r]) df).
Proof.
  pose proof (sort_values_sorted (λ r, [Feature.feature_date r]) df) as Hs.
  induction Hs as [|x l Hs IH Hx]; constructor; [done|].
  eapply Forall_impl; [exact Hx|]. intros y Hy. simpl in Hy.
  apply orb_true_iff in Hy as [Hy|Hy].
  - apply Z.ltb_lt in Hy. lia.
  - apply andb_true_iff in Hy as [Hy _]. apply Z.eqb_eq in Hy. lia.
Qed.

Lemma filter_sorted_cut {A} (key : A → Z) (c : Z) (l : list A) :
  StronglySorted (λ a b, key a ≤ key b) l →
  List.filter (λ r, key r <? c) l ++ List.filter (λ r, c <=? key r) l = l.
Proof.
  induction 1 as [|x l Hs IH Hx]; [done|]. simpl.
  destruct (Z.ltb_spec (key x) c) as [Hlt|Hge].
  - destruct (Z.leb_spec c (key x)); [lia|]. simpl. by rewrite IH.
  - destruct (Z.leb_spec c (key x)); [|lia].
    rewrite Forall_forall in Hx.
    rewrite List_filter_none.
    2:{ intros y Hy. apply Z.ltb_ge. specialize (Hx y Hy). lia. }
    rewrite List_filter_all; [done|].
    intros y Hy. apply Z.leb_le. specialize (Hx y Hy). lia.
Qed.

(** X8: a split returned for a non-empty table cuts the date-sorted
    table in two: train followed by validation is in ascending date
    order.  For val_weeks ≥ 0 validation is never empty and holds the
    latest date; for a negative val_weeks validation is empty and train
    holds every row. *)
Theorem create_train_val_split_cuts_sorted (df : list Feature.t) (val_weeks m : Z)
    (s : trainer.Split) :
  Feature.max_date df = Some m →
  trainer.create_train_val_split df val_weeks = Ok s →
  StronglySorted Z.le
    (Feature.feature_date <$> (trainer.train_df s ++ trainer.val_df s))
  ∧ (0 ≤ val_weeks →
     trainer.val_df s ≠ [] ∧ Feature.max_date (trainer.val_df s) = Some m)
  ∧ (val_weeks < 0 → trainer.val_df s = [] ∧ trainer.train_df s ≡ₚ df).
Proof.
  intros Hm Hrun.
  destruct (create_train_val_split_eq df val_weeks m Hm) as (s' & Hs & Ht & Hv).
  rewrite Hs in Hrun. injection Hrun as <-. rewrite Ht, Hv.
  set (sorted := sort_values (λ r, [Feature.feature_date r]) df).
  assert (Hp : sorted ≡ₚ df) by apply sort_values_perm.
  pose proof (sorted_by_date df) as Hsorted. fold sorted in Hsorted.
  apply max_date_spec in Hm as [(r0 & Hr0 & Hd0) Hle].
  split_and!.
  - rewrite (filter_sorted_cut Feature.feature_date) by done.
    by apply (StronglySorted_fmap Feature.feature_date _ Z.le) in Hsorted.
  - intros Hw.
    assert (Hin : r0 ∈ List.filter
                    (λ r, m - 7 * val_weeks <=? Feature.feature_date r) sorted).
    { apply elem_of_List_filter. split; [by rewrite Hp|]. apply Z.leb_le. lia. }
    split.
    + intros Hnil. rewrite Hnil in Hin. by apply elem_of_nil in Hin.
    + apply max_date_spec. split; [by exists r0|].
      intros r Hr. apply elem_of_List_filter in Hr as [Hr _]. rewrite Hp in Hr.
      by apply Hle.
  - intros Hw. split.
    + apply List_filter_none. intros r Hr. rewrite Hp in Hr.
      apply Z.leb_gt. specialize (Hle r Hr). lia.
    + rewrite List_filter_all; [done|]. intros r Hr. rewrite Hp in Hr.
      apply Z.ltb_lt. specialize (Hle r Hr). lia.
Qed.

Lemma create_train_val_split_cuts_sorted_witness :
  ∃ s, trainer.create_train_val_split sample.history 8 = Ok s
       ∧ StronglySorted Z.le
           (Feature.feature_date <$> (trainer.train_df s ++ trainer.val_df s))
       ∧ (0 ≤ 8 →
          trainer.val_df s ≠ []
          ∧ Feature.max_date (trainer.val_df s) = Some (sample.friday + 77))
       ∧ (8 < 0 → trainer.val_df s = [] ∧ trainer.train_df s ≡ₚ sample.history).
Proof.
  eexists. split; [reflexivity|].
  apply (create_train_val_split_cuts_sorted sample.history 8 (sample.friday + 77));
    reflexivity.
Defined.



(** ** Rational arithmetic and rounding *)

Lemma this_plus (x y : Qc) : (this (x + y)%Qc == this x + this y)%Q.
Proof. apply Qred_correct. Qed.
Lemma this_mult (x y : Qc) : (this (x * y)%Qc == this x * this y)%Q.
Proof. apply Qred_correct. Qed.
Lemma this_opp (x : Qc) : (this (- x)%Qc == - this x)%Q.
Proof. apply Qred_correct. Qed.
Lemma this_minus (x y : Qc) : (this (x - y)%Qc == this x - this y)%Q.
Proof. unfold Qcminus. rewrite this_plus, this_opp. reflexivity. Qed.
Lemma this_inv (x : Qc) : (this (/ x)%Qc == / this x)%Q.
Proof. apply Qred_correct. Qed.
Lemma this_div (x y : Qc) : (this (x / y)%Qc == this x / this y)%Q.
Proof. unfold Qcdiv. rewrite this_mult, this_inv. reflexivity. Qed.
Lemma this_Zq (z : Z) : this (Zq z) = inject_Z z.
Proof. reflexivity. Qed.
Lemma this_0 : this 0%Qc = 0%Q.
Proof. reflexivity. Qed.

(** Inequalities between rationals in canonical form are decided as
    inequalities between plain rationals. *)
Ltac qc_to_q :=
  unfold Qcle, Qclt in *;
  repeat (rewrite ?this_minus, ?this_div, ?this_plus, ?this_mult, ?this_opp,
            ?this_inv, ?this_Zq, ?this_0 in * );
  repeat match goal with
  | |- context [Qdiv (inject_Z ?a) (inject_Z (Zpos ?p))] =>
      let E := fresh in
      assert (E : Qeq (Qdiv (inject_Z a) (inject_Z (Zpos p))) (Qmake a p))
        by reflexivity;
      rewrite E; clear E
  | H : context [Qdiv (inject_Z ?a) (inject_Z (Zpos ?p))] |- _ =>
      let E := fresh in
      assert (E : Qeq (Qdiv (inject_Z a) (inject_Z (Zpos p))) (Qmake a p))
        by reflexivity;
      rewrite E in H; clear E
  end.

Ltac qc_lra := qc_to_q; unfold inject_Z in *; lra.

Lemma Qc_eq_Qeq (x y : Qc) : (this x == this y)%Q → x = y.
Proof. apply Qc_is_canon. Qed.

Lemma Zq_add (a b : Z) : Zq (a + b) = (Zq a + Zq b)%Qc.
Proof.
  apply Qc_eq_Qeq. rewrite this_plus, !this_Zq. by rewrite inject_Z_plus.
Qed.

Lemma Zq_mul (a b : Z) : Zq (a * b) = (Zq a * Zq b)%Qc.
Proof.
  apply Qc_eq_Qeq. rewrite this_mult, !this_Zq. by rewrite inject_Z_mult.
Qed.

Lemma Zq_le (a b : Z) : a ≤ b ↔ (Zq a ≤ Zq b)%Qc.
Proof. unfold Qcle. rewrite !this_Zq. by rewrite Zle_Qle. Qed.

Lemma Zq_lt (a b : Z) : a < b ↔ (Zq a < Zq b)%Qc.
Proof. unfold Qclt. rewrite !this_Zq. by rewrite Zlt_Qlt. Qed.

Lemma round_half_even_bounds (q : Qc) :
  Qfloor q ≤ round_half_even q ≤ Qfloor q + 1.
Proof. unfold round_half_even. cbv zeta. repeat case_decide; try lia. destruct (Z.even _); lia. Qed.

Lemma round_half_even_mono (q q' : Qc) :
  (q ≤ q')%Qc → round_half_even q ≤ round_half_even q'.
Proof.
  intros Hle.
  pose proof (Qfloor_resp_le q q' Hle) as Hf.
  pose proof (round_half_even_bounds q) as Hb.
  pose proof (round_half_even_bounds q') as Hb'.
  destruct (decide (Qfloor q < Qfloor q')) as [Hlt|Hge]; [lia|].
  assert (Heq : Qfloor q' = Qfloor q) by lia.
  unfold round_half_even in *. cbv zeta in *. rewrite Heq in *.
  set (f := Qfloor q) in *. clearbody f.
  repeat case_decide; try lia; try (exfalso; qc_lra); destruct (Z.even f); lia.
Qed.

Lemma round_half_even_Zq (z : Z) : round_half_even (Zq z) = z.
Proof.
  unfold round_half_even. cbv zeta.
  assert (Hf : Qfloor (Zq z) = z) by (rewrite this_Zq; apply Qfloor_Z).
  rewrite Hf. rewrite decide_True; [done|]. qc_lra.
Qed.

Lemma Qfloor_Qc (q : Qc) : (Zq (Qfloor q) ≤ q)%Qc ∧ (q < Zq (Qfloor q + 1))%Qc.
Proof.
  split.
  - unfold Qcle. rewrite this_Zq. apply Qfloor_le.
  - unfold Qclt. rewrite this_Zq. apply Qlt_floor.
Qed.

Lemma round_half_even_near (q : Qc) :
  (q - Zq 1 / Zq 2 ≤ Zq (round_half_even q))%Qc
  ∧ (Zq (round_half_even q) ≤ q + Zq 1 / Zq 2)%Qc.
Proof.
  destruct (Qfloor_Qc q) as [Hlo Hhi]. rewrite Zq_add in Hhi.
  unfold round_half_even. cbv zeta.
  destruct (decide (q - Zq (Qfloor q) < Zq 1 / Zq 2)%Qc) as [Hr|Hr].
  { split; qc_lra. }
  apply Qcnot_lt_le in Hr.
  destruct (decide (Zq 1 / Zq 2 < q - Zq (Qfloor q))%Qc) as [Hr'|Hr'].
  { rewrite Zq_add. split; qc_lra. }
  apply Qcnot_lt_le in Hr'.
  destruct (Z.even (Qfloor q)); rewrite ?Zq_add; split; qc_lra.
Qed.

Lemma Zq_nonzero (z : Z) : z ≠ 0 → Zq z ≠ 0%Qc.
Proof.
  intros Hz Heq. apply (f_equal (λ q : Qc, Qnum (this q))) in Heq. simpl in Heq. done.
Qed.

Lemma round_mono (q q' : Qc) (n : Z) :
  0 ≤ n → (q ≤ q')%Qc → (round_ q n ≤ round_ q' n)%Qc.
Proof.
  intros Hn Hle. unfold round_.
  assert (Hp : 0 < 10 ^ n) by (apply Z.pow_pos_nonneg; lia).
  set (s := 10 ^ n) in *. clearbody s.
  assert (Hs : (0 < Zq s)%Qc) by by apply Zq_pos.
  assert (Hm : round_half_even (q * Zq s) ≤ round_half_even (q' * Zq s)).
  { apply round_half_even_mono. apply Qcmult_le_compat_r; [done|].
    by apply Qclt_le_weak. }
  apply Zq_le in Hm.
  unfold Qcdiv. apply Qcmult_le_compat_r; [done|].
  apply Qclt_le_weak. apply Qcinv_pos. done.
Qed.

Lemma round_0 (n : Z) : round_ 0 n = 0%Qc.
Proof.
  unfold round_. replace (0 * Zq (10 ^ n))%Qc with (Zq 0) by (rewrite Zq_0; ring).
  rewrite round_half_even_Zq, Zq_0. unfold Qcdiv. ring.
Qed.

Lemma round_2_near (q : Qc) :
  (q - Zq 1 / Zq 200 ≤ round_ q 2)%Qc ∧ (round_ q 2 ≤ q + Zq 1 / Zq 200)%Qc.
Proof.
  unfold round_. change (10 ^ 2) with 100.
  destruct (round_half_even_near (q * Zq 100)) as [Hlo Hhi].
  set (z := Zq (round_half_even (q * Zq 100))) in *. clearbody z.
  assert (Hz : (z / Zq 100 * Zq 100)%Qc = z) by (field; by apply Zq_nonzero).
  set (y := (z / Zq 100)%Qc) in *. clearbody y. subst z.
  split; qc_lra.
Qed.

Lemma round_exact (z n : Z) :
  0 ≤ n → round_ (Zq z / Zq (10 ^ n)) n = (Zq z / Zq (10 ^ n))%Qc.
Proof.
  intros Hn. unfold round_.
  assert (Hp : 0 < 10 ^ n) by (apply Z.pow_pos_nonneg; lia).
  assert (Hnz : Zq (10 ^ n) ≠ 0%Qc) by (apply Zq_nonzero; lia).
  replace (Zq z / Zq (10 ^ n) * Zq (10 ^ n))%Qc with (Zq z) by (field; done).
  by rewrite round_half_even_Zq.
Qed.

Lemma py_max_l (a b : Qc) : (a ≤ py_max a b)%Qc.
Proof.
  unfold py_max. case_decide; [by apply Qclt_le_weak | apply Qcle_refl].
Qed.

Lemma py_max_r (a b : Qc) : (b ≤ py_max a b)%Qc.
Proof.
  unfold py_max. case_decide; [apply Qcle_refl | by apply Qcnot_lt_le].
Qed.

Lemma py_max_lub (a b c : Qc) : (a ≤ c)%Qc → (b ≤ c)%Qc → (py_max a b ≤ c)%Qc.
Proof. intros Ha Hb. unfold py_max. by case_decide. Qed.

(** ** models/generate_forecasts.py: what every forecast row holds *)

Lemma for_each_inv {A B} (f : A → result B) (l : list A) (bs : list B) :
  generate_forecasts.for_each f l = Ok bs → Forall2 (λ a b, f a = Ok b) l bs.
Proof.
  revert bs. induction l as [|a l IH]; intros bs Hbs; simpl in Hbs.
  - injection Hbs as <-. constructor.
  - destruct (f a) as [b|e] eqn:Hfa; [|done]. cbn [mbind result_bind] in Hbs.
    destruct (generate_forecasts.for_each f l) as [bs'|e]; [|done].
    cbn [mbind result_bind] in Hbs. injection Hbs as <-.
    constructor; [done | by apply IH].
Qed.

Lemma Forall2_with_elem {A B} (P : A → B → Prop) (l : list A) (k : list B) :
  Forall2 P l k → Forall2 (λ a b, a ∈ l ∧ P a b) l k.
Proof.
  induction 1 as [|a b l k Hab _ IH]; constructor.
  - split; [left | done].
  - eapply Forall2_impl; [exact IH|]. intros a' b' [Hin HP]. split; [by right | done].
Qed.

Lemma generate_predictions_inv (model : Booster) (features_df : list Feature.t)
    (forecast_weeks : Z) (out : list Forecast.t) :
  generate_forecasts.generate_predictions model features_df forecast_weeks = Ok out →
  ∃ (last_date : Z) (per_row : list (list Forecast.t)),
    let future_dates := map (datetime.add_weeks last_date) (seqZ 1 forecast_weeks) in
    Feature.max_date features_df = Some last_date
    ∧ 1 ≤ forecast_weeks
    ∧ out = concat per_row
    ∧ Forall2 (λ row fs,
        Forall2 (λ d f,
          d ∈ future_dates
          ∧ generate_forecasts.forecast model
              (generate_forecasts.get_feature_columns model) future_dates row d = Ok f)
          future_dates fs) features_df per_row.
Proof.
  unfold generate_forecasts.generate_predictions. intros Hgen.
  destruct (Feature.max_date features_df) as [last|] eqn:Hmax.
  - destruct (decide (1 ≤ forecast_weeks)) as [Hw|Hw].
    + destruct (map _ (seqZ 1 forecast_weeks)) as [|d0 ds] eqn:Hmap.
      { apply (f_equal length) in Hmap. rewrite length_map, length_seqZ in Hmap.
        simpl in Hmap. lia. }
      clear Hmap d0 ds. cbn [mbind result_bind] in Hgen.
      destruct (generate_forecasts.for_each _ features_df) as [per_row|e] eqn:Hper;
        [|done].
      cbn [mbind result_bind] in Hgen.
      exists last, per_row. cbv zeta. split_and!; try done.
      * destruct (concat per_row); [done | by injection Hgen].
      * apply for_each_inv in Hper.
        eapply Forall2_impl; [exact Hper|]. intros row fs Hfs.
        by apply for_each_inv, Forall2_with_elem in Hfs.
    + rewrite seqZ_nil in Hgen by lia. simpl in Hgen. done.
  - destruct (map _ (seqZ 1 forecast_weeks)); simpl in Hgen; done.
Qed.

Lemma Forall_concat_Forall2 {A B C} (P : C → Prop) (Q : A → B → C → Prop)
    (l : list A) (ds : list B) (per_row : list (list C)) :
  (∀ a d c, Q a d c → P c) →
  Forall2 (λ a cs, Forall2 (Q a) ds cs) l per_row → Forall P (concat per_row).
Proof.
  intros HQ Hall. induction Hall as [|a cs l per_row Hcs _ IH]; [constructor|].
  simpl. apply Forall_app. split; [|done].
  clear IH. induction Hcs as [|d c ds' cs' Hdc _ IH']; constructor; eauto.
Qed.

(** X10: every forecast row has 0 ≤ prediction_lower ≤ predicted_sales
    and prediction_upper ≥ predicted_sales + 195 (the interval reaches
    1.96 times an uncertainty of at least 100 above the prediction, and
    rounding to cents moves each end by half a cent at most), whatever
    finite value the regressor predicts, and carries the fixed model name
    and version. *)
Theorem generate_predictions_intervals (model : Booster)
    (features_df : list Feature.t) (forecast_weeks : Z) (out : list Forecast.t) :
  generate_forecasts.generate_predictions model features_df forecast_weeks = Ok out →
  Forall (λ f, (0 ≤ Forecast.prediction_lower f)%Qc
               ∧ (Forecast.prediction_lower f ≤ Forecast.predicted_sales f)%Qc
               ∧ (Forecast.predicted_sales f + Zq 195 ≤ Forecast.prediction_upper f)%Qc
               ∧ Forecast.model_name f = "lightgbm_forecaster"
               ∧ Forecast.model_version f = "v1.0") out.
Proof.
  intros Hgen.
  apply generate_predictions_inv in Hgen as (last & per_row & _ & _ & -> & Hall).
  eapply Forall_concat_Forall2; [|exact Hall].
  intros row d f [_ Hf].
  unfold generate_forecasts.forecast in Hf.
  destruct (index d _) as [i|e]; [|done]. cbn [mbind result_bind] in Hf.
  injection Hf as <-. cbn.
  set (p := py_max (predict_row model _) 0).
  set (s := py_max (p * (Zq 15 / Zq 100)) (Zq 100)).
  assert (Hp : (0 ≤ p)%Qc) by apply py_max_r.
  assert (Hs : (Zq 100 ≤ s)%Qc) by apply py_max_r.
  split_and!; try done.
  - match goal with |- (_ ≤ round_ ?x 2)%Qc =>
      pose proof (round_mono 0 x 2 ltac:(lia) (py_max_r _ _)) as H0 end.
    by rewrite round_0 in H0.
  - apply round_mono; [lia|]. apply py_max_lub; [|done]. qc_lra.
  - match goal with |- (_ ≤ round_ ?x 2)%Qc =>
      destruct (round_2_near x) as [Hup _] end.
    destruct (round_2_near p) as [_ Hpr].
    clearbody s p. qc_lra.
Qed.

Lemma index_map_seqZ (g : Z → Z) (m n w : Z) :
  (∀ a b, g a = g b → a = b) → m ≤ w < m + n →
  index (g w) (map g (seqZ m n)) = Ok (w - m).
Proof.
  intros Hinj. remember (Z.to_nat n) as k eqn:Hk.
  revert m n Hk. induction k as [|k IH]; intros m n Hk Hw; [lia|].
  rewrite seqZ_cons by lia. cbn [map index].
  destruct (decide (g m = g w)) as [Heq|Hne].
  - apply Hinj in Heq. subst. f_equal. lia.
  - assert (m ≠ w) by congruence.
    replace (Z.succ m) with (m + 1) by lia. replace (Z.pred n) with (n - 1) by lia.
    rewrite (IH (m + 1) (n - 1)) by lia. cbn [mbind result_bind]. f_equal. lia.
Qed.

Lemma confidence_exact (i : Z) :
  round_ (Zq 85 / Zq 100 - Zq 2 / Zq 100 * Zq i) 4
  = (Zq 85 / Zq 100 - Zq 2 / Zq 100 * Zq i)%Qc.
Proof.
  assert (Hnz : Zq 100 ≠ 0%Qc) by (by apply Zq_nonzero).
  assert (Hnz' : Zq (10 ^ 4) ≠ 0%Qc) by (by apply Zq_nonzero).
  assert (Heq : (Zq 85 / Zq 100 - Zq 2 / Zq 100 * Zq i)%Qc
                = (Zq (8500 - 200 * i) / Zq (10 ^ 4))%Qc).
  { replace (8500 - 200 * i) with (8500 + (-200) * i) by lia.
    rewrite Zq_add, Zq_mul.
    replace (Zq (10 ^ 4)) with (Zq 100 * Zq 100)%Qc by (by rewrite <-Zq_mul).
    replace (Zq 8500) with (Zq 85 * Zq 100)%Qc by (by rewrite <-Zq_mul).
    replace (Zq (-200)) with (- (Zq 2 * Zq 100))%Qc.
    2:{ rewrite <-Zq_mul. apply Qc_eq_Qeq. rewrite this_opp. reflexivity. }
    field. done. }
  rewrite Heq. apply round_exact. lia.
Qed.

Lemma confidence_negative (w : Z) :
  (Zq 85 / Zq 100 - Zq 2 / Zq 100 * Zq (w - 1) < 0)%Qc ↔ 44 ≤ w.
Proof.
  split.
  - intros Hlt. destruct (decide (44 ≤ w)) as [|Hn]; [done|]. exfalso.
    assert (Hw : (Zq (w - 1) ≤ Zq 42)%Qc) by (apply (proj1 (Zq_le _ _)); lia).
    qc_lra.
  - intros Hw. assert (Hw' : (Zq 43 ≤ Zq (w - 1))%Qc) by (apply (proj1 (Zq_le _ _)); lia).
    qc_lra.
Qed.

(** X11: the confidence score of a forecast depends on nothing but how
    many weeks ahead it is: week w after the last feature date gets
    0.85 − 0.02·(w − 1).  It decreases by 0.02 a week and is negative
    from week 44 on. *)
Theorem generate_predictions_confidence (model : Booster)
    (features_df : list Feature.t) (forecast_weeks : Z) (out : list Forecast.t) :
  generate_forecasts.generate_predictions model features_df forecast_weeks = Ok out →
  ∃ last_date, Feature.max_date features_df = Some last_date
    ∧ Forall (λ f, ∃ w, 1 ≤ w ≤ forecast_weeks
                ∧ Forecast.forecast_date f = last_date + 7 * w
                ∧ Forecast.confidence_score f
                  = (Zq 85 / Zq 100 - Zq 2 / Zq 100 * Zq (w - 1))%Qc
                ∧ ((Forecast.confidence_score f < 0)%Qc ↔ 44 ≤ w)) out.
Proof.
  intros Hgen.
  apply generate_predictions_inv in Hgen as (last & per_row & Hmax & Hw & -> & Hall).
  exists last. split; [done|].
  eapply Forall_concat_Forall2; [|exact Hall].
  intros row d f [Hd Hf].
  apply list_elem_of_In, in_map_iff in Hd as (w & <- & Hin).
  apply list_elem_of_In, elem_of_seqZ in Hin.
  unfold generate_forecasts.forecast in Hf.
  rewrite (index_map_seqZ (datetime.add_weeks last)) in Hf;
    [| unfold datetime.add_weeks; intros a b ?; lia | lia].
  cbn [mbind result_bind] in Hf. injection Hf as <-. cbn.
  exists w. rewrite confidence_exact. split_and!; try done; try lia.
  apply confidence_negative.
Qed.

Lemma forecast_key_of (model : Booster) (feature_cols : list string)
    (future_dates : list Z) (row : Feature.t) (d : Z) (f : Forecast.t) :
  generate_forecasts.forecast model feature_cols future_dates row d = Ok f →
  forecast_key f = (Feature.store_id row, Feature.dept_id row, d).
Proof.
  unfold generate_forecasts.forecast. destruct (index d future_dates); [|done].
  cbn [mbind result_bind]. by intros [= <-].
Qed.

Lemma NoDup_fmap_elem_inj {A B} (f : A → B) (l : list A) (x y : A) :
  NoDup (f <$> l) → x ∈ l → y ∈ l → f x = f y → x = y.
Proof.
  induction l as [|a l IH]; intros Hnd Hx Hy Hxy; [by apply elem_of_nil in Hx|].
  rewrite fmap_cons in Hnd. apply NoDup_cons in Hnd as [Hnin Hnd].
  apply elem_of_cons in Hx as [->|Hx]; apply elem_of_cons in Hy as [->|Hy].
  - done.
  - exfalso. apply Hnin. rewrite Hxy. by apply list_elem_of_fmap_2.
  - exfalso. apply Hnin. rewrite <-Hxy. by apply list_elem_of_fmap_2.
  - by apply IH.
Qed.

(** X12: when no two input rows share (store_id, dept_id), no two
    forecast rows share (store_id, dept_id, forecast_date). *)
Theorem generate_predictions_unique_keys (model : Booster)
    (features_df : list Feature.t) (forecast_weeks : Z) (out : list Forecast.t) :
  NoDup ((λ r, (Feature.store_id r, Feature.dept_id r)) <$> features_df) →
  generate_forecasts.generate_predictions model features_df forecast_weeks = Ok out →
  NoDup (forecast_key <$> out).
Proof.
  intros Hnd Hgen.
  apply generate_predictions_inv in Hgen as (last & per_row & Hmax & Hw & -> & Hall).
  cbv zeta in Hall.
  set (dates := map (datetime.add_weeks last) (seqZ 1 forecast_weeks)) in *.
  assert (Hkeys : forecast_key <$> concat per_row
                  = features_df ≫= (λ row,
                      (λ d, (Feature.store_id row, Feature.dept_id row, d)) <$> dates)).
  { clear Hnd Hmax. induction Hall as [|row fs rows fss Hrow _ IH]; [done|].
    rewrite bind_cons. simpl. rewrite fmap_app, IH. f_equal.
    apply Forall2_fmap_eq. eapply Forall2_impl; [exact Hrow|].
    intros d f [_ Hf]. by apply forecast_key_of in Hf. }
  rewrite Hkeys. apply NoDup_bind.
  - intros r1 r2 [[s dp] d] Hr1 Hr2 H1 H2.
    apply list_elem_of_fmap in H1 as (d1 & Hk1 & _).
    apply list_elem_of_fmap in H2 as (d2 & Hk2 & _).
    apply (NoDup_fmap_elem_inj _ _ _ _ Hnd Hr1 Hr2). congruence.
  - intros r _. apply NoDup_fmap_2_strong; [intros a b _ _ ?; congruence|].
    unfold dates. apply (NoDup_fmap_2_strong (datetime.add_weeks last));
      [|apply NoDup_seqZ].
    unfold datetime.add_weeks. intros a b _ _ ?. lia.
  - by apply NoDup_fmap_1 in Hnd.
Qed.

(** X13: the one-row frame handed to the regressor has exactly the
    model's columns in the model's order, and a column that the base
    row lacks (and the loop does not set) is fed as 0. *)
Theorem feature_vector_columns (feature_cols : list string) (row : Feature.t)
    (d : Z) :
  (generate_forecasts.feature_vector feature_cols row d).*1 = feature_cols
  ∧ ∀ c, c ∈ feature_cols → c ∉ calendar_labels → Feature.series row !! c = None →
         item c (generate_forecasts.feature_vector feature_cols row d) = Some (VInt 0).
Proof.
  split.
  - unfold generate_forecasts.feature_vector. cbv zeta.
    rewrite <-list_fmap_compose. apply list_fmap_id.
  - intros c Hin Hc Hnone. rewrite feature_vector_item by done.
    by rewrite feature_row_other, Hnone.
Qed.

Lemma generate_predictions_intervals_witness :
  ∃ out, generate_forecasts.generate_predictions sample.booster sample.latest 8 = Ok out
    ∧ Forall (λ f, (0 ≤ Forecast.prediction_lower f)%Qc
               ∧ (Forecast.prediction_lower f ≤ Forecast.predicted_sales f)%Qc
               ∧ (Forecast.predicted_sales f + Zq 195 ≤ Forecast.prediction_upper f)%Qc
               ∧ Forecast.model_name f = "lightgbm_forecaster"
               ∧ Forecast.model_version f = "v1.0") out.
Proof.
  eexists. split; [vm_compute; reflexivity|].
  apply (generate_predictions_intervals sample.booster sample.latest 8).
  vm_compute. reflexivity.
Defined.

Lemma generate_predictions_confidence_witness :
  ∃ out, generate_forecasts.generate_predictions sample.booster sample.latest 8 = Ok out
    ∧ ∃ last_date, Feature.max_date sample.latest = Some last_date
      ∧ Forall (λ f, ∃ w, 1 ≤ w ≤ 8
                  ∧ Forecast.forecast_date f = last_date + 7 * w
                  ∧ Forecast.confidence_score f
                    = (Zq 85 / Zq 100 - Zq 2 / Zq 100 * Zq (w - 1))%Qc
                  ∧ ((Forecast.confidence_score f < 0)%Qc ↔ 44 ≤ w)) out.
Proof.
  eexists. split; [vm_compute; reflexivity|].
  apply (generate_predictions_confidence sample.booster sample.latest 8).
  vm_compute. reflexivity.
Defined.

Lemma generate_predictions_unique_keys_witness :
  ∃ out, generate_forecasts.generate_predictions sample.booster sample.latest 8 = Ok out
    ∧ NoDup (forecast_key <$> out).
Proof.
  eexists. split; [vm_compute; reflexivity|].
  apply (generate_predictions_unique_keys sample.booster sample.latest 8).
  - apply (bool_decide_unpack _). vm_compute. exact I.
  - vm_compute. reflexivity.
Defined.

Lemma feature_vector_columns_witness :
  item "store_type_A"
    (generate_forecasts.feature_vector generate_forecasts.default_feature_columns
       (sample.feature 1 1 2 150) (datetime._ymd2ord 2012 11 30))
  = Some (VInt 0).
Proof.
  apply (feature_vector_columns generate_forecasts.default_feature_columns
           (sample.feature 1 1 2 150) (datetime._ymd2ord 2012 11 30)).
  - vm_compute. repeat ((by left) || right).
  - intros Hin. vm_compute in Hin.
    repeat (apply elem_of_cons in Hin as [Hin|Hin]; [discriminate Hin|]).
    by apply elem_of_nil in Hin.
  - reflexivity.
Defined.
